(** * generate_pz: a GOST 7.32 explanatory-note generator

    Shallow embedding of [generate_pz.py].  The script drives python-docx:
    it creates a blank document, configures the page geometry, appends
    paragraphs, runs and one table, and saves the result.

    Modelling conventions.
    - A Python [str] is a [string] holding its UTF-8 bytes.  Concatenation
      and [startswith] with ASCII prefixes act on the bytes exactly as on the
      code points.  [str.upper] is a builtin of the interpreter and is taken
      as the section variable [str_upper].
    - The python-docx object tree is a tree of records.  A property that
      python-docx reports as [None] (inherited, never assigned) is [None]
      here.
    - The script holds the only reference to every paragraph and run it
      creates, and never appends to the document while it is still
      formatting a paragraph.  A paragraph is therefore built as a local
      value, statement by statement in source order, and attached to the
      document body when it is complete.
    - Numeric literals such as 1.5 and 1.25 are exact rationals.  A length
      is the value the script assigns, [Pt] or [Cm] of a number, kept
      symbolic; python-docx stores it rounded to its own units.
    - Texts are as python-docx accepts them and returns them unchanged:
      without control characters other than tab and line feed.
    - XML names are the prefixed names the script uses, which [qn]
      resolves.
    - A table records its style and its cells, not the column widths
      python-docx derives from the page geometry when the table is added.
    - [main] is the composition up to [doc.save]; writing the file is
      outside the model. *)

From Stdlib Require Import ZArith QArith String Ascii DecimalString Lia.
From stdpp Require Import base list.

Local Open Scope string_scope.

(** ** Units and enumerations of python-docx *)

(** [docx.shared.Pt] and [docx.shared.Cm], kept symbolic. *)
Inductive Length : Type :=
| Pt (n : Q)
| Cm (x : Q).

Inductive WD_ALIGN_PARAGRAPH : Type := LEFT | CENTER | RIGHT | JUSTIFY.

Inductive WD_BREAK : Type := BREAK_LINE | BREAK_PAGE.

(** ** Raw XML elements ([OxmlElement]) *)

Record OxmlElement : Type := mkElement {
  tag : string;
  attrib : list (string * string);
  etext : string
}.

(** [element.set(name, value)]: overwrite the attribute or add it last. *)
Fixpoint attrib_set (a : list (string * string)) (k v : string)
  : list (string * string) :=
  match a with
  | [] => [(k, v)]
  | (k', v') :: a' =>
      if String.eqb k' k then (k, v) :: a' else (k', v') :: attrib_set a' k v
  end.

Definition create_element (name : string) : OxmlElement :=
  mkElement name [] EmptyString.

(** [qn] maps a prefixed name to its Clark form; it is injective on the
    names used here, so the prefixed name itself is the key. *)
Definition create_attribute (element : OxmlElement) (name value : string)
  : OxmlElement :=
  mkElement (tag element) (attrib_set (attrib element) name value)
            (etext element).

Definition set_etext (element : OxmlElement) (s : string) : OxmlElement :=
  mkElement (tag element) (attrib element) s.

(** ** Runs *)

(** Children of a [w:r] element, after its properties.  The text children
    python-docx derives from one assigned string (w:t, w:tab) are kept as the
    single string that [run.text] reads back. *)
Inductive RunChild : Type :=
| w_t (s : string)
| w_br (kind : WD_BREAK)
| w_raw (e : OxmlElement).

Record Run : Type := mkRun {
  run_bold : option bool;
  font_name : option string;
  font_size : option Length;
  rFonts_eastAsia : option string;
  r_children : list RunChild
}.

Definition Run_empty : Run := mkRun None None None None [].

(** [run.text = text]: replaces the content; an empty string adds no child. *)
Definition run_set_text (text : string) (r : Run) : Run :=
  mkRun (run_bold r) (font_name r) (font_size r) (rFonts_eastAsia r)
        (match text with EmptyString => [] | _ => [w_t text] end).

(** The run created by [paragraph.add_run(text)]. *)
Definition new_run (text : string) : Run := run_set_text text Run_empty.

Definition set_bold (b : bool) (r : Run) : Run :=
  mkRun (Some b) (font_name r) (font_size r) (rFonts_eastAsia r)
        (r_children r).

Definition set_font_name (n : string) (r : Run) : Run :=
  mkRun (run_bold r) (Some n) (font_size r) (rFonts_eastAsia r)
        (r_children r).

Definition set_font_size (s : Length) (r : Run) : Run :=
  mkRun (run_bold r) (font_name r) (Some s) (rFonts_eastAsia r)
        (r_children r).

(** [run._element.rPr.rFonts.set(qn('w:eastAsia'), n)]; every call site has
    assigned [font.name] just before, so [rPr] and [rFonts] exist. *)
Definition set_eastAsia (n : string) (r : Run) : Run :=
  mkRun (run_bold r) (font_name r) (font_size r) (Some n) (r_children r).

(** [run._r.append(e)] *)
Definition r_append (c : RunChild) (r : Run) : Run :=
  mkRun (run_bold r) (font_name r) (font_size r) (rFonts_eastAsia r)
        (r_children r ++ [c])%list.

(** [run.text]: the concatenated text children. *)
Fixpoint children_text (cs : list RunChild) : string :=
  match cs with
  | [] => EmptyString
  | w_t s :: cs' => s ++ children_text cs'
  | _ :: cs' => children_text cs'
  end.

Definition run_text (r : Run) : string := children_text (r_children r).

(** ** The page-number field *)

Definition fldChar_begin : OxmlElement :=
  create_attribute (create_element "w:fldChar") "w:fldCharType" "begin".

Definition instrText_PAGE : OxmlElement :=
  set_etext
    (create_attribute (create_element "w:instrText") "xml:space" "preserve")
    "PAGE".

Definition fldChar_end : OxmlElement :=
  create_attribute (create_element "w:fldChar") "w:fldCharType" "end".

Definition add_page_number (run : Run) : Run :=
  let fldChar1 := fldChar_begin in
  let instrText := instrText_PAGE in
  let fldChar2 := fldChar_end in
  let run := r_append (w_raw fldChar1) run in
  let run := r_append (w_raw instrText) run in
  let run := r_append (w_raw fldChar2) run in
  run.

(** The three field nodes, in the order a viewer needs them. *)
Definition PAGE_field : list RunChild :=
  [ w_raw (mkElement "w:fldChar" [("w:fldCharType", "begin")] EmptyString);
    w_raw (mkElement "w:instrText" [("xml:space", "preserve")] "PAGE");
    w_raw (mkElement "w:fldChar" [("w:fldCharType", "end")] EmptyString) ].

(** A run carries the field when the triplet occurs contiguously in it. *)
Definition carries_page_field (r : Run) : Prop :=
  exists pre post, r_children r = (pre ++ PAGE_field ++ post)%list.

(** ** Paragraphs *)

Record Paragraph : Type := mkParagraph {
  alignment : option WD_ALIGN_PARAGRAPH;
  space_before : option Length;
  space_after : option Length;
  line_spacing : option Q;
  first_line_indent : option Length;
  runs : list Run
}.

(** The paragraph created by [doc.add_paragraph()] or [cell.add_paragraph()]. *)
Definition new_paragraph : Paragraph :=
  mkParagraph None None None None None [].

Definition set_alignment (a : WD_ALIGN_PARAGRAPH) (p : Paragraph) : Paragraph :=
  mkParagraph (Some a) (space_before p) (space_after p) (line_spacing p)
              (first_line_indent p) (runs p).

Definition p_add_run (r : Run) (p : Paragraph) : Paragraph :=
  mkParagraph (alignment p) (space_before p) (space_after p) (line_spacing p)
              (first_line_indent p) (runs p ++ [r])%list.

(** Python truth value of [None], [0] or a number. *)
Definition truthy_num (x : option Q) : bool :=
  match x with
  | None => false
  | Some q => negb (Qeq_bool q 0)
  end.

Definition truthy_int (x : option Z) : bool :=
  match x with
  | None => false
  | Some n => negb (n =? 0)%Z
  end.

(** [set_paragraph_format(paragraph, space_before=0, space_after=0,
    line_spacing=1.5, first_line_indent=1.25)]; callers pass the defaults
    explicitly. *)
Definition set_paragraph_format (paragraph : Paragraph)
    (space_before_ space_after_ line_spacing_ : Q)
    (first_line_indent_ : option Q) : Paragraph :=
  mkParagraph (alignment paragraph)
    (Some (Pt space_before_))
    (Some (Pt space_after_))
    (Some line_spacing_)
    (if truthy_num first_line_indent_
     then match first_line_indent_ with
          | Some x => Some (Cm x)
          | None => Some (Cm 0)
          end
     else Some (Cm 0))
    (runs paragraph).

(** ** Tables, sections, document *)

Record Cell : Type := mkCell { cell_paragraphs : list Paragraph }.

Record Table : Type := mkTable {
  table_style : option string;
  table_rows : list (list Cell)
}.

Inductive Block : Type :=
| BParagraph (p : Paragraph)
| BTable (t : Table).

Record SectionT : Type := mkSection {
  page_height : option Length;
  page_width : option Length;
  left_margin : option Length;
  right_margin : option Length;
  top_margin : option Length;
  bottom_margin : option Length;
  header_distance : option Length;
  footer_distance : option Length;
  header_paragraphs : list Paragraph;
  footer_paragraphs : list Paragraph
}.

Record DocumentT : Type := mkDocument {
  sections : list SectionT;
  body : list Block
}.

(** [Document()]: the blank template has one section, no header or footer
    content and an empty body.  The geometry of the template is never read
    by the script; it is [None] until assigned. *)
Definition Document : DocumentT :=
  mkDocument
    [mkSection None None None None None None None None [] []]
    [].

Definition doc_append (b : Block) (doc : DocumentT) : DocumentT :=
  mkDocument (sections doc) (body doc ++ [b])%list.

(** [doc.add_page_break()]: a paragraph with one run holding a page break. *)
Definition add_page_break (doc : DocumentT) : DocumentT :=
  doc_append
    (BParagraph
       (p_add_run (r_append (w_br BREAK_PAGE) (new_run EmptyString))
                  new_paragraph))
    doc.

(** [str(n)] for an integer. *)
Definition str_of_int (n : Z) : string :=
  NilZero.string_of_int (Z.to_int n).

(** ** Exceptions *)

Inductive PyError : Type := IndexError.

Inductive result (A : Type) : Type :=
| Ok (a : A)
| Raise (e : PyError).

Arguments Ok {A} a.
Arguments Raise {A} e.

Definition bind {A B : Type} (m : result A) (k : A -> result B) : result B :=
  match m with
  | Ok a => k a
  | Raise e => Raise e
  end.

Notation "'let*' x ':=' e 'in' k" := (bind e (fun x => k))
  (at level 10, x name, e at level 100, k at level 200).

(** [for i, x in enumerate(l, start): s = body(s, i, x)] *)
Fixpoint for_enumerate {A St : Type} (body : St -> nat -> A -> St)
    (start : nat) (l : list A) (s : St) : St :=
  match l with
  | [] => s
  | x :: l' => for_enumerate body (S start) l' (body s start x)
  end.

(** The same loop when the body can raise: the first exception ends it. *)
Fixpoint for_enumerateM {A St : Type} (body : St -> nat -> A -> result St)
    (start : nat) (l : list A) (s : St) : result St :=
  match l with
  | [] => Ok s
  | x :: l' =>
      let* s' := body s start x in
      for_enumerateM body (S start) l' s'
  end.

(** ** Table cells *)

(** A fresh cell holds one empty paragraph. *)
Definition new_cell : Cell := mkCell [new_paragraph].

(** [doc.add_table(rows, cols)] *)
Definition add_table (rows cols : nat) : Table :=
  mkTable None (replicate rows (replicate cols new_cell)).

Definition set_table_style (s : string) (t : Table) : Table :=
  mkTable (Some s) (table_rows t).

(** [cell.text = text]: the content becomes one paragraph with one run. *)
Definition cell_set_text (text : string) (c : Cell) : Cell :=
  mkCell [p_add_run (run_set_text text Run_empty) new_paragraph].

Definition p_map_runs (f : Run -> Run) (p : Paragraph) : Paragraph :=
  mkParagraph (alignment p) (space_before p) (space_after p) (line_spacing p)
              (first_line_indent p) (map f (runs p)).

(** [for paragraph in cell.paragraphs: for run in paragraph.runs:
    run.bold = True] *)
Definition cell_bold_runs (c : Cell) : Cell :=
  mkCell (map (p_map_runs (set_bold true)) (cell_paragraphs c)).

(** [table.rows[r].cells[c]]; an index past the end raises. *)
Definition table_cell (t : Table) (r c : nat) : result Cell :=
  match table_rows t !! r with
  | None => Raise IndexError
  | Some row =>
      match row !! c with
      | None => Raise IndexError
      | Some cell => Ok cell
      end
  end.

(** Write back the cell object obtained by [table_cell t r c]. *)
Definition table_put (t : Table) (r c : nat) (cell : Cell) : Table :=
  mkTable (table_style t)
          (alter (fun row => <[c := cell]> row) r (table_rows t)).

Definition fill_header_row (table : Table) (headers : list string)
  : result Table :=
  for_enumerateM
    (fun table i header =>
       let* cell := table_cell table 0 i in
       let cell := cell_set_text header cell in
       let cell := cell_bold_runs cell in
       Ok (table_put table 0 i cell))
    0 headers table.

Definition fill_data_rows (table : Table) (data : list (list string))
  : result Table :=
  for_enumerateM
    (fun table row_idx row_data =>
       for_enumerateM
         (fun table col_idx cell_data =>
            let* cell := table_cell table row_idx col_idx in
            Ok (table_put table row_idx col_idx
                          (cell_set_text cell_data cell)))
         0 row_data table)
    1 data table.

(** The table of [create_section4], with its literals as arguments:
    [doc.add_table(rows, cols)], the style, the header loop, the data
    loop. *)
Definition build_table (rows cols : nat) (headers : list string)
    (data : list (list string)) : result Table :=
  let table := add_table rows cols in
  let table := set_table_style "Table Grid" table in
  let* table := fill_header_row table headers in
  let* table := fill_data_rows table data in
  Ok table.

(** ** Page geometry *)

Definition setup_document (doc : DocumentT) : DocumentT :=
  mkDocument
    (map (fun section =>
            mkSection (Some (Cm 29.7)) (Some (Cm 21)) (Some (Cm 3))
                      (Some (Cm 1.5)) (Some (Cm 2)) (Some (Cm 2))
                      (Some (Cm 1.25)) (Some (Cm 1.25))
                      (header_paragraphs section) (footer_paragraphs section))
         (sections doc))
    (body doc).

(** ** Literal content *)

Definition dq : string := String (ascii_of_nat 34) EmptyString.
Definition nl : string := String (ascii_of_nat 10) EmptyString.
Definition tab : string := String (ascii_of_nat 9) EmptyString.

Definition STUDENT_NAME : string :=
  "Дубровских Н.Е.".

Definition STUDENT_FULL_NAME : string :=
  "Дубровских Никита Евгеньевич".

Definition GROUP : string :=
  "221-361".

Definition TEACHER : string :=
  "Пардаев А.А.".

Definition TOPIC : string :=
  "Разработка интеграционного решения для взаимодействия информационных систем предприятия".

Definition YEAR : string :=
  "2025".

Definition section4_headers : list string :=
["Реализация"; "ns/op"; "B/op"; "allocs/op"].

Definition section4_data : list (list string) :=
  [ ["MapCache"; "220"; "32"; "1"];
    ["FilesystemCache"; "8000"; "512"; "5"];
    ["SQLiteCache"; "78000"; "1024"; "12"] ].

Definition references : list string :=
  [ "ГОСТ 7.32-2017. Межгосударственный стандарт. Система стандартов по информации, библиотечному и издательскому делу. Отчет о научно-исследовательской работе. Структура и правила оформления.";
    "Hohpe, G. Enterprise Integration Patterns: Designing, Building, and Deploying Messaging Solutions / G. Hohpe, B. Woolf. – Addison-Wesley, 2003. – 736 p.";
    "Newman, S. Building Microservices: Designing Fine-Grained Systems / S. Newman. – 2nd ed. – O'Reilly Media, 2021. – 616 p.";
    "Richardson, C. Microservices Patterns: With examples in Java / C. Richardson. – Manning Publications, 2018. – 520 p.";
    "Kleppmann, M. Designing Data-Intensive Applications / M. Kleppmann. – O'Reilly Media, 2017. – 616 p.";
    "Rust Programming Language [Электронный ресурс]. – Режим доступа: https://www.rust-lang.org/ (дата обращения: 10.12.2025).";
    "Go Programming Language [Электронный ресурс]. – Режим доступа: https://go.dev/ (дата обращения: 10.12.2025).";
    "React Documentation [Электронный ресурс]. – Режим доступа: https://react.dev/ (дата обращения: 10.12.2025).";
    "Docker Documentation [Электронный ресурс]. – Режим доступа: https://docs.docker.com/ (дата обращения: 10.12.2025).";
    "Leaflet – an open-source JavaScript library for interactive maps [Электронный ресурс]. – Режим доступа: https://leafletjs.com/ (дата обращения: 10.12.2025).";
    "OSRM – Open Source Routing Machine [Электронный ресурс]. – Режим доступа: https://project-osrm.org/ (дата обращения: 10.12.2025).";
    "PostgreSQL Documentation [Электронный ресурс]. – Режим доступа: https://www.postgresql.org/docs/ (дата обращения: 10.12.2025).";
    "JWT.io – JSON Web Tokens [Электронный ресурс]. – Режим доступа: https://jwt.io/ (дата обращения: 10.12.2025).";
    "Axum – Ergonomic and modular web framework [Электронный ресурс]. – Режим доступа: https://github.com/tokio-rs/axum (дата обращения: 10.12.2025).";
    "Gin Web Framework [Электронный ресурс]. – Режим доступа: https://gin-gonic.com/ (дата обращения: 10.12.2025)." ].

Section Builders.

(** [str.upper] of the interpreter. *)
Variable str_upper : string -> string.

Definition add_heading (doc : DocumentT) (text : string) (level : Z)
  : DocumentT * Paragraph :=
  if (level =? 1)%Z then
    let p := new_paragraph in
    let p := set_alignment CENTER p in
    let run := new_run (str_upper text) in
    let run := set_bold true run in
    let run := set_font_name "Times New Roman" run in
    let run := set_font_size (Pt 14) run in
    let run := set_eastAsia "Times New Roman" run in
    let p := p_add_run run p in
    let p := set_paragraph_format p 0 12 1.5 None in
    (doc_append (BParagraph p) doc, p)
  else
    let p := new_paragraph in
    let p := set_alignment JUSTIFY p in
    let run := new_run text in
    let run := set_bold true run in
    let run := set_font_name "Times New Roman" run in
    let run := set_font_size (Pt 14) run in
    let run := set_eastAsia "Times New Roman" run in
    let p := p_add_run run p in
    let p := set_paragraph_format p 12 6 1.5 (Some 1.25%Q) in
    (doc_append (BParagraph p) doc, p).

Definition add_paragraph (doc : DocumentT) (text : string)
    (bold indent : bool) : DocumentT * Paragraph :=
  let p := new_paragraph in
  let p := set_alignment JUSTIFY p in
  let run := new_run text in
  let run := set_bold bold run in
  let run := set_font_name "Times New Roman" run in
  let run := set_font_size (Pt 14) run in
  let run := set_eastAsia "Times New Roman" run in
  let p := p_add_run run p in
  let p := set_paragraph_format p 0 0 1.5
             (Some (if indent then 1.25 else 0)%Q) in
  (doc_append (BParagraph p) doc, p).

Definition add_list_item (doc : DocumentT) (text : string)
    (number : option Z) : DocumentT * Paragraph :=
  let p := new_paragraph in
  let p := set_alignment JUSTIFY p in
  let run :=
    if truthy_int number
    then match number with
         | Some n => new_run (str_of_int n ++ ") " ++ text)
         | None => new_run ("– " ++ text)
         end
    else new_run ("– " ++ text) in
  let run := set_font_name "Times New Roman" run in
  let run := set_font_size (Pt 14) run in
  let run := set_eastAsia "Times New Roman" run in
  let p := p_add_run run p in
  let p := set_paragraph_format p 0 0 1.5 (Some 1.25%Q) in
  (doc_append (BParagraph p) doc, p).

Definition create_title_page (doc : DocumentT) : DocumentT :=
  let p := new_paragraph in
  let p := set_alignment CENTER p in
  let run := new_run "Министерство науки и высшего образования Российской Федерации" in
  let run := set_font_name "Times New Roman" run in
  let run := set_font_size (Pt 14) run in
  let run := set_eastAsia "Times New Roman" run in
  let p := p_add_run run p in
  let doc := doc_append (BParagraph p) doc in
  let p := new_paragraph in
  let p := set_alignment CENTER p in
  let run := new_run "Федеральное государственное автономное образовательное учреждение высшего образования" in
  let run := set_font_name "Times New Roman" run in
  let run := set_font_size (Pt 14) run in
  let run := set_eastAsia "Times New Roman" run in
  let p := p_add_run run p in
  let doc := doc_append (BParagraph p) doc in
  let p := new_paragraph in
  let p := set_alignment CENTER p in
  let run := new_run "«МОСКОВСКИЙ ПОЛИТЕХНИЧЕСКИЙ УНИВЕРСИТЕТ»" in
  let run := set_font_name "Times New Roman" run in
  let run := set_font_size (Pt 14) run in
  let run := set_eastAsia "Times New Roman" run in
  let p := p_add_run run p in
  let doc := doc_append (BParagraph p) doc in
  let p := new_paragraph in
  let p := set_alignment CENTER p in
  let run := new_run "(МОСКОВСКИЙ ПОЛИТЕХ)" in
  let run := set_font_name "Times New Roman" run in
  let run := set_font_size (Pt 14) run in
  let run := set_eastAsia "Times New Roman" run in
  let p := p_add_run run p in
  let doc := doc_append (BParagraph p) doc in
  let doc := Nat.iter 5 (doc_append (BParagraph new_paragraph)) doc in
  let p := new_paragraph in
  let p := set_alignment CENTER p in
  let run := new_run "КУРСОВОЙ ПРОЕКТ" in
  let run := set_font_name "Times New Roman" run in
  let run := set_font_size (Pt 14) run in
  let run := set_eastAsia "Times New Roman" run in
  let p := p_add_run run p in
  let doc := doc_append (BParagraph p) doc in
  let p := new_paragraph in
  let p := set_alignment CENTER p in
  let run := new_run "по теме:" in
  let run := set_font_name "Times New Roman" run in
  let run := set_font_size (Pt 14) run in
  let run := set_eastAsia "Times New Roman" run in
  let p := p_add_run run p in
  let doc := doc_append (BParagraph p) doc in
  let p := new_paragraph in
  let p := set_alignment CENTER p in
  let run := new_run TOPIC in
  let run := set_bold true run in
  let run := set_font_name "Times New Roman" run in
  let run := set_font_size (Pt 14) run in
  let run := set_eastAsia "Times New Roman" run in
  let p := p_add_run run p in
  let doc := doc_append (BParagraph p) doc in
  let doc := doc_append (BParagraph new_paragraph) doc in
  let p := new_paragraph in
  let p := set_alignment CENTER p in
  let run := new_run "по курсу Проектирование интеграционных решений" in
  let run := set_font_name "Times New Roman" run in
  let run := set_font_size (Pt 14) run in
  let run := set_eastAsia "Times New Roman" run in
  let p := p_add_run run p in
  let doc := doc_append (BParagraph p) doc in
  let doc := doc_append (BParagraph new_paragraph) doc in
  let p := new_paragraph in
  let p := set_alignment CENTER p in
  let run := new_run "по направлению 09.03.03 – Прикладная информатика" in
  let run := set_font_name "Times New Roman" run in
  let run := set_font_size (Pt 14) run in
  let run := set_eastAsia "Times New Roman" run in
  let p := p_add_run run p in
  let doc := doc_append (BParagraph p) doc in
  let p := new_paragraph in
  let p := set_alignment CENTER p in
  let run := new_run "Образовательная программа (профиль)" in
  let run := set_font_name "Times New Roman" run in
  let run := set_font_size (Pt 14) run in
  let run := set_eastAsia "Times New Roman" run in
  let p := p_add_run run p in
  let doc := doc_append (BParagraph p) doc in
  let p := new_paragraph in
  let p := set_alignment CENTER p in
  let run := new_run "«Корпоративные информационные системы»" in
  let run := set_font_name "Times New Roman" run in
  let run := set_font_size (Pt 14) run in
  let run := set_eastAsia "Times New Roman" run in
  let p := p_add_run run p in
  let doc := doc_append (BParagraph p) doc in
  let doc := Nat.iter 4 (doc_append (BParagraph new_paragraph)) doc in
  let p := new_paragraph in
  let run := new_run ("Студент:" ++ tab ++ tab ++ tab ++ tab ++ tab ++ tab ++ tab ++ tab ++ tab ++ STUDENT_NAME ++ ", " ++ GROUP) in
  let run := set_font_name "Times New Roman" run in
  let run := set_font_size (Pt 14) run in
  let run := set_eastAsia "Times New Roman" run in
  let p := p_add_run run p in
  let doc := doc_append (BParagraph p) doc in
  let doc := doc_append (BParagraph new_paragraph) doc in
  let p := new_paragraph in
  let run := new_run ("Преподаватель:" ++ tab ++ tab ++ tab ++ tab ++ tab ++ tab ++ tab ++ tab ++ TEACHER) in
  let run := set_font_name "Times New Roman" run in
  let run := set_font_size (Pt 14) run in
  let run := set_eastAsia "Times New Roman" run in
  let p := p_add_run run p in
  let doc := doc_append (BParagraph p) doc in
  let doc := Nat.iter 8 (doc_append (BParagraph new_paragraph)) doc in
  let p := new_paragraph in
  let p := set_alignment CENTER p in
  let run := new_run ("Москва " ++ YEAR) in
  let run := set_font_name "Times New Roman" run in
  let run := set_font_size (Pt 14) run in
  let run := set_eastAsia "Times New Roman" run in
  let p := p_add_run run p in
  let doc := doc_append (BParagraph p) doc in
  doc.

Definition toc_items : list (string * string) :=
  [ ("ВВЕДЕНИЕ", "3");
    ("1 АНАЛИЗ ПРЕДМЕТНОЙ ОБЛАСТИ", "5");
    ("1.1 Описание бизнес-процесса", "5");
    ("1.2 Выявление потоков данных", "7");
    ("1.3 Концептуальная модель данных", "8");
    ("2 ПРОЕКТИРОВАНИЕ АРХИТЕКТУРЫ", "10");
    ("2.1 Выбор шаблона интеграции", "10");
    ("2.2 Логическая архитектура решения", "11");
    ("2.3 Выбор технологий и инструментов", "13");
    ("3 РАЗРАБОТКА ИНТЕГРАЦИОННОГО РЕШЕНИЯ", "15");
    ("3.1 Схема обмена данными", "15");
    ("3.2 Контракты сообщений", "16");
    ("3.3 Обработка ошибок", "18");
    ("4 РЕАЛИЗАЦИЯ И ТЕСТИРОВАНИЕ", "19");
    ("4.1 Реализация прототипа", "19");
    ("4.2 Тестирование", "21");
    ("ЗАКЛЮЧЕНИЕ", "23");
    ("СПИСОК ИСПОЛЬЗОВАННЫХ ИСТОЧНИКОВ", "24") ].

(** Body of the loop of [create_toc]. *)
Definition toc_entry (doc : DocumentT) (item page : string) : DocumentT :=
  let p := new_paragraph in
  let run :=
    if existsb (fun pre => String.prefix pre item) ["1."; "2."; "3."; "4."]
    then new_run (tab ++ item)
    else new_run item in
  let run := set_font_name "Times New Roman" run in
  let run := set_font_size (Pt 14) run in
  let run := set_eastAsia "Times New Roman" run in
  let p := p_add_run run p in
  let tab_run := new_run (tab ++ page) in
  let tab_run := set_font_name "Times New Roman" tab_run in
  let tab_run := set_font_size (Pt 14) tab_run in
  let p := p_add_run tab_run p in
  let p := set_paragraph_format p 0 0 1.5 (Some 0%Q) in
  doc_append (BParagraph p) doc.

Definition create_toc (doc : DocumentT) : DocumentT :=
  let doc := fst (add_heading doc "СОДЕРЖАНИЕ" 1) in
  fold_left (fun doc '(item, page) => toc_entry doc item page) toc_items doc.

Definition create_introduction (doc : DocumentT) : DocumentT :=
  let doc := fst (add_heading doc "ВВЕДЕНИЕ" 1) in
  let doc := fst (add_paragraph doc "В современных условиях цифровизации бизнес-процессов предприятия сталкиваются с необходимостью интеграции множества разнородных информационных систем. Эффективное взаимодействие между корпоративными приложениями, базами данных и внешними сервисами становится критически важным фактором конкурентоспособности организации." false true) in
  let doc := fst (add_paragraph doc "Актуальность темы обусловлена тем, что большинство современных предприятий используют несколько информационных систем: CRM для управления взаимоотношениями с клиентами, ERP для планирования ресурсов, системы складского учёта, бухгалтерские программы и другие специализированные приложения. Отсутствие интеграции между этими системами приводит к дублированию данных, ошибкам при ручном переносе информации и снижению оперативности принятия управленческих решений." false true) in
  let doc := fst (add_paragraph doc "Объектом исследования является процесс информационного обмена между компонентами распределённой системы для картографического сервиса построения маршрутов." false true) in
  let doc := fst (add_paragraph doc "Предметом исследования являются методы и технологии интеграции информационных систем на основе микросервисной архитектуры." false true) in
  let doc := fst (add_paragraph doc "Целью курсового проекта является разработка архитектуры и прототипа интеграционного решения, обеспечивающего взаимодействие между несколькими разнородными информационными системами с использованием современных подходов, стандартов и инструментов интеграции." false true) in
  let doc := fst (add_paragraph doc "Для достижения поставленной цели необходимо решить следующие задачи:" false true) in
  let doc := fst (add_list_item doc "провести анализ предметной области и определить интеграционные требования;" (Some 1%Z)) in
  let doc := fst (add_list_item doc "разработать архитектуру интеграционного решения;" (Some 2%Z)) in
  let doc := fst (add_list_item doc "выбрать и обосновать инструменты и технологии интеграции;" (Some 3%Z)) in
  let doc := fst (add_list_item doc "разработать схему обмена данными между системами;" (Some 4%Z)) in
  let doc := fst (add_list_item doc "создать прототип информационной системы и интеграционного решения;" (Some 5%Z)) in
  let doc := fst (add_list_item doc "провести тестирование корректности передачи и трансформации данных." (Some 6%Z)) in
  let doc := fst (add_paragraph doc "В работе использованы методы системного анализа, объектно-ориентированного проектирования, а также современные практики разработки программного обеспечения: микросервисная архитектура, контейнеризация и непрерывная интеграция." false true) in
  doc.

Definition create_section1 (doc : DocumentT) : DocumentT :=
  let doc := fst (add_heading doc "1 АНАЛИЗ ПРЕДМЕТНОЙ ОБЛАСТИ" 1) in
  let doc := fst (add_heading doc "1.1 Описание бизнес-процесса" 2) in
  let doc := fst (add_paragraph doc "Для данного курсового проекта выбран бизнес-процесс «Построение маршрута для путешественника». Данный процесс является типичным для картографических сервисов и туристических приложений, где пользователю необходимо построить оптимальный маршрут между несколькими точками интереса." false true) in
  let doc := fst (add_paragraph doc "Декомпозиция бизнес-процесса на элементарные этапы:" false true) in
  let doc := fst (add_list_item doc "Регистрация/аутентификация пользователя в системе;" (Some 1%Z)) in
  let doc := fst (add_list_item doc "Отображение интерактивной карты с возможностью навигации;" (Some 2%Z)) in
  let doc := fst (add_list_item doc "Добавление точек маршрута путём клика на карте;" (Some 3%Z)) in
  let doc := fst (add_list_item doc "Получение картографических тайлов для визуализации;" (Some 4%Z)) in
  let doc := fst (add_list_item doc "Расчёт оптимального маршрута между точками;" (Some 5%Z)) in
  let doc := fst (add_list_item doc "Отображение построенного маршрута на карте;" (Some 6%Z)) in
  let doc := fst (add_list_item doc "Сохранение маршрута в профиле пользователя." (Some 7%Z)) in
  let doc := fst (add_paragraph doc "В процессе участвуют следующие роли:" false true) in
  let doc := fst (add_list_item doc "Пользователь (путешественник) – основной актор, инициирующий построение маршрута;" None) in
  let doc := fst (add_list_item doc "Система аутентификации – обеспечивает безопасный доступ к функциям;" None) in
  let doc := fst (add_list_item doc "Картографический сервис – предоставляет визуальное отображение карты;" None) in
  let doc := fst (add_list_item doc "Сервис маршрутизации – рассчитывает оптимальный путь." None) in
  let doc := fst (add_heading doc "1.2 Выявление потоков данных" 2) in
  let doc := fst (add_paragraph doc "Анализ потоков данных между компонентами системы выявил следующие основные направления обмена информацией:" false true) in
  let doc := fst (add_paragraph doc "1. Поток аутентификации:" false true) in
  let doc := fst (add_list_item doc "Пользователь → Сервис аутентификации: учётные данные (email, пароль);" None) in
  let doc := fst (add_list_item doc "Сервис аутентификации → Пользователь: JWT токены (access, refresh)." None) in
  let doc := fst (add_paragraph doc "2. Поток картографических данных:" false true) in
  let doc := fst (add_list_item doc "Frontend → Сервис кеширования: запрос тайла (z, x, y);" None) in
  let doc := fst (add_list_item doc "Сервис кеширования → Frontend: изображение тайла или 404;" None) in
  let doc := fst (add_list_item doc "Сервис кеширования → Внешний провайдер: запрос тайла при отсутствии в кеше." None) in
  let doc := fst (add_paragraph doc "3. Поток маршрутизации:" false true) in
  let doc := fst (add_list_item doc "Frontend → OSRM API: координаты точек маршрута;" None) in
  let doc := fst (add_list_item doc "OSRM API → Frontend: геометрия маршрута, расстояние, время." None) in
  let doc := fst (add_heading doc "1.3 Концептуальная модель данных" 2) in
  let doc := fst (add_paragraph doc "Концептуальная модель данных системы включает следующие основные сущности:" false true) in
  let doc := fst (add_paragraph doc "User (Пользователь):" false true) in
  let doc := fst (add_list_item doc "id: UUID – уникальный идентификатор;" None) in
  let doc := fst (add_list_item doc "email: String – адрес электронной почты;" None) in
  let doc := fst (add_list_item doc "password_hash: String – хеш пароля;" None) in
  let doc := fst (add_list_item doc "created_at: Timestamp – дата регистрации;" None) in
  let doc := fst (add_list_item doc "updated_at: Timestamp – дата последнего обновления." None) in
  let doc := fst (add_paragraph doc "Tile (Картографический тайл):" false true) in
  let doc := fst (add_list_item doc "z: Integer – уровень масштабирования;" None) in
  let doc := fst (add_list_item doc "x: Integer – координата по горизонтали;" None) in
  let doc := fst (add_list_item doc "y: Integer – координата по вертикали;" None) in
  let doc := fst (add_list_item doc "data: Binary – бинарные данные изображения;" None) in
  let doc := fst (add_list_item doc "cached_at: Timestamp – время кеширования." None) in
  let doc := fst (add_paragraph doc "Route (Маршрут):" false true) in
  let doc := fst (add_list_item doc "id: UUID – уникальный идентификатор;" None) in
  let doc := fst (add_list_item doc "user_id: UUID – владелец маршрута;" None) in
  let doc := fst (add_list_item doc "waypoints: Array<Point> – точки маршрута;" None) in
  let doc := fst (add_list_item doc "geometry: GeoJSON – геометрия маршрута;" None) in
  let doc := fst (add_list_item doc "distance: Float – общая длина в метрах;" None) in
  let doc := fst (add_list_item doc "duration: Float – время прохождения в секундах." None) in
  doc.

Definition create_section2 (doc : DocumentT) : DocumentT :=
  let doc := fst (add_heading doc "2 ПРОЕКТИРОВАНИЕ АРХИТЕКТУРЫ" 1) in
  let doc := fst (add_heading doc "2.1 Выбор шаблона интеграции" 2) in
  let doc := fst (add_paragraph doc "Для реализации интеграционного решения был проведён сравнительный анализ основных шаблонов интеграции:" false true) in
  let doc := fst (add_paragraph doc "1. Point-to-Point (Точка-точка) – прямое соединение между системами. Преимущества: простота реализации, низкая задержка. Недостатки: плохая масштабируемость, сложность поддержки при увеличении количества систем." false true) in
  let doc := fst (add_paragraph doc "2. Enterprise Service Bus (ESB) – централизованная шина обмена сообщениями. Преимущества: единая точка управления, трансформация данных. Недостатки: единая точка отказа, высокая сложность." false true) in
  let doc := fst (add_paragraph doc "3. API Gateway – единая точка входа для клиентских приложений. Преимущества: централизованная аутентификация, маршрутизация запросов, агрегация данных. Недостатки: дополнительная задержка." false true) in
  let doc := fst (add_paragraph doc "4. Микросервисная архитектура с прямым взаимодействием через REST API. Преимущества: независимое развёртывание сервисов, технологическая гибкость, горизонтальное масштабирование. Недостатки: сложность отладки распределённых систем." false true) in
  let doc := fst (add_paragraph doc "Для данного проекта выбрана микросервисная архитектура с элементами API Gateway (реализован через Nginx reverse proxy). Такой выбор обоснован следующими факторами:" false true) in
  let doc := fst (add_list_item doc "возможность использования различных технологий для каждого сервиса (Rust, Go, TypeScript);" None) in
  let doc := fst (add_list_item doc "независимое масштабирование компонентов под нагрузку;" None) in
  let doc := fst (add_list_item doc "изоляция отказов – сбой одного сервиса не влияет на другие;" None) in
  let doc := fst (add_list_item doc "упрощённое развёртывание через Docker контейнеры." None) in
  let doc := fst (add_heading doc "2.2 Логическая архитектура решения" 2) in
  let doc := fst (add_paragraph doc "Разработанная архитектура включает следующие компоненты:" false true) in
  let doc := fst (add_paragraph doc "1. Frontend (React + TypeScript + Vite):" false true) in
  let doc := fst (add_list_item doc "интерактивная карта на базе Leaflet;" None) in
  let doc := fst (add_list_item doc "построение маршрутов через leaflet-routing-machine;" None) in
  let doc := fst (add_list_item doc "взаимодействие с backend через REST API." None) in
  let doc := fst (add_paragraph doc "2. Auth Service (Rust + Axum):" false true) in
  let doc := fst (add_list_item doc "регистрация и аутентификация пользователей;" None) in
  let doc := fst (add_list_item doc "выдача и обновление JWT токенов;" None) in
  let doc := fst (add_list_item doc "хранение данных в PostgreSQL." None) in
  let doc := fst (add_paragraph doc "3. Cache Service (Go + Gin):" false true) in
  let doc := fst (add_list_item doc "кеширование картографических тайлов;" None) in
  let doc := fst (add_list_item doc "три реализации хранилища: Map (in-memory), Filesystem, SQLite;" None) in
  let doc := fst (add_list_item doc "проксирование запросов к внешним tile-серверам." None) in
  let doc := fst (add_paragraph doc "4. Nginx (Reverse Proxy):" false true) in
  let doc := fst (add_list_item doc "маршрутизация запросов между frontend и backend;" None) in
  let doc := fst (add_list_item doc "раздача статических файлов;" None) in
  let doc := fst (add_list_item doc "балансировка нагрузки (при необходимости)." None) in
  let doc := fst (add_paragraph doc "5. PostgreSQL:" false true) in
  let doc := fst (add_list_item doc "хранение данных пользователей;" None) in
  let doc := fst (add_list_item doc "поддержка транзакций и ACID-гарантий." None) in
  let doc := fst (add_paragraph doc "Все компоненты объединены в единую Docker-сеть (guide_helper_network), что обеспечивает изолированное сетевое взаимодействие между контейнерами." false true) in
  let doc := fst (add_heading doc "2.3 Выбор технологий и инструментов" 2) in
  let doc := fst (add_paragraph doc "Выбор технологий для каждого компонента обоснован следующими критериями:" false true) in
  let doc := fst (add_paragraph doc "Rust для сервиса аутентификации:" false true) in
  let doc := fst (add_list_item doc "безопасность памяти без сборщика мусора;" None) in
  let doc := fst (add_list_item doc "высокая производительность;" None) in
  let doc := fst (add_list_item doc "строгая типизация и проверка на этапе компиляции;" None) in
  let doc := fst (add_list_item doc "экосистема: Axum (веб-фреймворк), SQLx (работа с БД), jsonwebtoken (JWT)." None) in
  let doc := fst (add_paragraph doc "Go для сервиса кеширования:" false true) in
  let doc := fst (add_list_item doc "простота языка и быстрая разработка;" None) in
  let doc := fst (add_list_item doc "отличная поддержка конкурентности (горутины);" None) in
  let doc := fst (add_list_item doc "низкое потребление памяти;" None) in
  let doc := fst (add_list_item doc "экосистема: Gin (веб-фреймворк), Zap (логирование)." None) in
  let doc := fst (add_paragraph doc "TypeScript + React для frontend:" false true) in
  let doc := fst (add_list_item doc "типизация для надёжности кода;" None) in
  let doc := fst (add_list_item doc "богатая экосистема компонентов;" None) in
  let doc := fst (add_list_item doc "Vite для быстрой сборки и HMR." None) in
  let doc := fst (add_paragraph doc "Docker и Docker Compose для контейнеризации:" false true) in
  let doc := fst (add_list_item doc "воспроизводимость окружения;" None) in
  let doc := fst (add_list_item doc "изоляция зависимостей;" None) in
  let doc := fst (add_list_item doc "простота развёртывания." None) in
  doc.

Definition create_section3 (doc : DocumentT) : DocumentT :=
  let doc := fst (add_heading doc "3 РАЗРАБОТКА ИНТЕГРАЦИОННОГО РЕШЕНИЯ" 1) in
  let doc := fst (add_heading doc "3.1 Схема обмена данными" 2) in
  let doc := fst (add_paragraph doc "В системе используется синхронный обмен данными через REST API. Формат передачи данных – JSON для структурированных данных и бинарный формат для изображений тайлов." false true) in
  let doc := fst (add_paragraph doc "Основные эндпоинты API:" false true) in
  let doc := fst (add_paragraph doc "Auth Service (порт 8080):" false true) in
  let doc := fst (add_list_item doc "GET /healthz – проверка работоспособности сервиса;" None) in
  let doc := fst (add_list_item doc "POST /api/v1/auth/register – регистрация пользователя;" None) in
  let doc := fst (add_list_item doc "POST /api/v1/auth/login – вход в систему;" None) in
  let doc := fst (add_list_item doc "POST /api/v1/auth/refresh – обновление access токена." None) in
  let doc := fst (add_paragraph doc "Cache Service (порт 8080):" false true) in
  let doc := fst (add_list_item doc "GET /api/v1/healthz – проверка работоспособности;" None) in
  let doc := fst (add_list_item doc "GET /api/v1/tile/:z/:x/:y – получение тайла по координатам." None) in
  let doc := fst (add_heading doc "3.2 Контракты сообщений" 2) in
  let doc := fst (add_paragraph doc "Контракт регистрации пользователя:" false true) in
  let doc := fst (add_paragraph doc "Запрос (POST /api/v1/auth/register):" false false) in
  let doc := fst (add_paragraph doc ("{" ++ nl ++ "  " ++ dq ++ "email" ++ dq ++ ": " ++ dq ++ "user@example.com" ++ dq ++ "," ++ nl ++ "  " ++ dq ++ "password" ++ dq ++ ": " ++ dq ++ "securePassword123" ++ dq ++ nl ++ "}") false false) in
  let doc := fst (add_paragraph doc "Успешный ответ (201 Created):" false false) in
  let doc := fst (add_paragraph doc ("{" ++ nl ++ "  " ++ dq ++ "id" ++ dq ++ ": " ++ dq ++ "550e8400-e29b-41d4-a716-446655440000" ++ dq ++ "," ++ nl ++ "  " ++ dq ++ "email" ++ dq ++ ": " ++ dq ++ "user@example.com" ++ dq ++ "," ++ nl ++ "  " ++ dq ++ "created_at" ++ dq ++ ": " ++ dq ++ "2025-01-15T10:30:00Z" ++ dq ++ nl ++ "}") false false) in
  let doc := fst (add_paragraph doc "Контракт аутентификации:" false true) in
  let doc := fst (add_paragraph doc "Запрос (POST /api/v1/auth/login):" false false) in
  let doc := fst (add_paragraph doc ("{" ++ nl ++ "  " ++ dq ++ "email" ++ dq ++ ": " ++ dq ++ "user@example.com" ++ dq ++ "," ++ nl ++ "  " ++ dq ++ "password" ++ dq ++ ": " ++ dq ++ "securePassword123" ++ dq ++ nl ++ "}") false false) in
  let doc := fst (add_paragraph doc "Успешный ответ (200 OK):" false false) in
  let doc := fst (add_paragraph doc ("{" ++ nl ++ "  " ++ dq ++ "access_token" ++ dq ++ ": " ++ dq ++ "eyJhbGciOiJIUzI1NiIs..." ++ dq ++ "," ++ nl ++ "  " ++ dq ++ "refresh_token" ++ dq ++ ": " ++ dq ++ "eyJhbGciOiJIUzI1NiIs..." ++ dq ++ "," ++ nl ++ "  " ++ dq ++ "token_type" ++ dq ++ ": " ++ dq ++ "Bearer" ++ dq ++ "," ++ nl ++ "  " ++ dq ++ "expires_in" ++ dq ++ ": 900" ++ nl ++ "}") false false) in
  let doc := fst (add_paragraph doc "Контракт получения тайла:" false true) in
  let doc := fst (add_paragraph doc "Запрос: GET /api/v1/tile/15/19456/11256" false false) in
  let doc := fst (add_paragraph doc "Ответ: бинарные данные изображения (image/png) или 404 Not Found." false false) in
  let doc := fst (add_heading doc "3.3 Обработка ошибок" 2) in
  let doc := fst (add_paragraph doc "Для обработки ошибок разработан единый формат ответа:" false true) in
  let doc := fst (add_paragraph doc ("{" ++ nl ++ "  " ++ dq ++ "error" ++ dq ++ ": {" ++ nl ++ "    " ++ dq ++ "code" ++ dq ++ ": " ++ dq ++ "INVALID_CREDENTIALS" ++ dq ++ "," ++ nl ++ "    " ++ dq ++ "message" ++ dq ++ ": " ++ dq ++ "Invalid email or password" ++ dq ++ "," ++ nl ++ "    " ++ dq ++ "details" ++ dq ++ ": null" ++ nl ++ "  }" ++ nl ++ "}") false false) in
  let doc := fst (add_paragraph doc "Обрабатываемые сценарии ошибок:" false true) in
  let doc := fst (add_list_item doc "INVALID_CREDENTIALS – неверные учётные данные при входе;" (Some 1%Z)) in
  let doc := fst (add_list_item doc "USER_ALREADY_EXISTS – пользователь с таким email уже зарегистрирован;" (Some 2%Z)) in
  let doc := fst (add_list_item doc "TOKEN_EXPIRED – срок действия токена истёк;" (Some 3%Z)) in
  let doc := fst (add_list_item doc "INVALID_TOKEN – недействительный токен;" (Some 4%Z)) in
  let doc := fst (add_list_item doc "TILE_NOT_FOUND – тайл не найден в кеше и у провайдера;" (Some 5%Z)) in
  let doc := fst (add_list_item doc "INTERNAL_ERROR – внутренняя ошибка сервера." (Some 6%Z)) in
  let doc := fst (add_paragraph doc "При возникновении ошибок в сервисе кеширования применяется стратегия graceful degradation: при недоступности внешнего tile-сервера возвращается кешированная версия тайла (если доступна) или placeholder-изображение." false true) in
  doc.

Definition create_section4 (doc : DocumentT) : result DocumentT :=
  let doc := fst (add_heading doc "4 РЕАЛИЗАЦИЯ И ТЕСТИРОВАНИЕ" 1) in
  let doc := fst (add_heading doc "4.1 Реализация прототипа" 2) in
  let doc := fst (add_paragraph doc "Прототип системы реализован в соответствии с разработанной архитектурой. Структура проекта организована по принципу монорепозитория:" false true) in
  let doc := fst (add_paragraph doc ("/" ++ nl ++ "├── frontend/           # React приложение" ++ nl ++ "├── backend/" ++ nl ++ "│   ├── auth/          # Rust сервис аутентификации" ++ nl ++ "│   └── cache/         # Go сервис кеширования" ++ nl ++ "└── docker-compose.yml # Оркестрация контейнеров") false false) in
  let doc := fst (add_paragraph doc "Сервис аутентификации (Auth Service) реализует паттерн Clean Architecture с разделением на слои:" false true) in
  let doc := fst (add_list_item doc "domain – доменные модели (User);" None) in
  let doc := fst (add_list_item doc "usecase – бизнес-логика (AuthUseCase, JwtService, PasswordService);" None) in
  let doc := fst (add_list_item doc "repository – работа с хранилищем данных (PostgresUserRepository);" None) in
  let doc := fst (add_list_item doc "delivery – HTTP обработчики (AuthHandler)." None) in
  let doc := fst (add_paragraph doc "Сервис кеширования (Cache Service) реализует три варианта хранилища с единым интерфейсом:" false true) in
  let doc := fst (add_paragraph doc ("type Cache interface {" ++ nl ++ "    Get(key string) ([]byte, error)" ++ nl ++ "    Set(key string, value []byte) error" ++ nl ++ "}") false false) in
  let doc := fst (add_paragraph doc "Реализации кеша:" false true) in
  let doc := fst (add_list_item doc "MapCache – хранение в sync.Map (in-memory);" None) in
  let doc := fst (add_list_item doc "FilesystemCache – хранение на файловой системе;" None) in
  let doc := fst (add_list_item doc "SQLiteCache – хранение в базе данных SQLite." None) in
  let doc := fst (add_paragraph doc "Frontend реализован как SPA (Single Page Application) на React с использованием библиотеки Leaflet для отображения карты. Маршрутизация между точками выполняется через OSRM API." false true) in
  let doc := fst (add_heading doc "4.2 Тестирование" 2) in
  let doc := fst (add_paragraph doc "Для сервиса кеширования разработан комплексный набор бенчмарков, позволяющий сравнить производительность различных реализаций хранилища." false true) in
  let doc := fst (add_paragraph doc "Результаты бенчмарков операции записи (Set):" false true) in
  let headers := section4_headers in
  let data := section4_data in
  let* table := build_table 4 4 headers data in
  let doc := doc_append (BTable table) doc in
  let doc := doc_append (BParagraph new_paragraph) doc in
  let doc := fst (add_paragraph doc "Результаты показывают, что MapCache обеспечивает наилучшую производительность для операций записи и чтения, однако не сохраняет данные между перезапусками. FilesystemCache предоставляет хороший баланс между производительностью и персистентностью. SQLiteCache обеспечивает ACID-гарантии, но имеет наибольшую задержку." false true) in
  let doc := fst (add_paragraph doc "Функциональное тестирование включало:" false true) in
  let doc := fst (add_list_item doc "проверку регистрации и аутентификации пользователей;" (Some 1%Z)) in
  let doc := fst (add_list_item doc "тестирование выдачи и обновления JWT токенов;" (Some 2%Z)) in
  let doc := fst (add_list_item doc "проверку кеширования тайлов;" (Some 3%Z)) in
  let doc := fst (add_list_item doc "тестирование построения маршрутов на карте;" (Some 4%Z)) in
  let doc := fst (add_list_item doc "проверку обработки ошибок." (Some 5%Z)) in
  let doc := fst (add_paragraph doc "Все функциональные тесты пройдены успешно. Система корректно обрабатывает штатные и ошибочные сценарии." false true) in
  Ok doc.

Definition create_conclusion (doc : DocumentT) : DocumentT :=
  let doc := fst (add_heading doc "ЗАКЛЮЧЕНИЕ" 1) in
  let doc := fst (add_paragraph doc "В ходе выполнения курсового проекта была разработана архитектура и реализован прототип интеграционного решения для взаимодействия информационных систем предприятия на примере картографического сервиса построения маршрутов." false true) in
  let doc := fst (add_paragraph doc "Основные результаты работы:" false true) in
  let doc := fst (add_list_item doc "Проведён анализ предметной области, выполнена декомпозиция бизнес-процесса «Построение маршрута», выявлены потоки данных между компонентами системы и разработана концептуальная модель данных." (Some 1%Z)) in
  let doc := fst (add_list_item doc "Разработана архитектура интеграционного решения на основе микросервисного подхода. Выбор обоснован требованиями к масштабируемости, изоляции отказов и возможности использования различных технологий." (Some 2%Z)) in
  let doc := fst (add_list_item doc "Выбраны и обоснованы технологии реализации: Rust с Axum для сервиса аутентификации, Go с Gin для сервиса кеширования, React с TypeScript для frontend, PostgreSQL для хранения данных, Docker для контейнеризации." (Some 3%Z)) in
  let doc := fst (add_list_item doc "Разработана схема обмена данными в формате JSON, определены контракты сообщений для всех точек интеграции, описаны алгоритмы обработки ошибок." (Some 4%Z)) in
  let doc := fst (add_list_item doc "Реализован работающий прототип системы, включающий сервис аутентификации с JWT токенами, сервис кеширования с тремя реализациями хранилища, web-интерфейс с интерактивной картой." (Some 5%Z)) in
  let doc := fst (add_list_item doc "Проведено тестирование системы, включая бенчмарки производительности реализаций кеша и функциональное тестирование всех компонентов." (Some 6%Z)) in
  let doc := fst (add_paragraph doc "Разработанное решение демонстрирует современные подходы к интеграции информационных систем и может быть использовано как основа для создания полнофункционального картографического сервиса." false true) in
  let doc := fst (add_paragraph doc "Направления дальнейшего развития:" false true) in
  let doc := fst (add_list_item doc "добавление асинхронного обмена сообщениями через брокер (RabbitMQ, Kafka);" None) in
  let doc := fst (add_list_item doc "реализация API Gateway с централизованной аутентификацией;" None) in
  let doc := fst (add_list_item doc "добавление мониторинга и трассировки запросов;" None) in
  let doc := fst (add_list_item doc "разработка мобильного приложения." None) in
  doc.

(** Body of the loop of [create_references]. *)
Definition reference_entry (doc : DocumentT) (i : nat) (ref : string)
  : DocumentT :=
  let p := new_paragraph in
  let p := set_alignment JUSTIFY p in
  let run := new_run (str_of_int (Z.of_nat i) ++ ". " ++ ref) in
  let run := set_font_name "Times New Roman" run in
  let run := set_font_size (Pt 14) run in
  let run := set_eastAsia "Times New Roman" run in
  let p := p_add_run run p in
  let p := set_paragraph_format p 0 0 1.5 (Some 0%Q) in
  doc_append (BParagraph p) doc.

Definition create_references (doc : DocumentT) : DocumentT :=
  let doc := fst (add_heading doc "СПИСОК ИСПОЛЬЗОВАННЫХ ИСТОЧНИКОВ" 1) in
  for_enumerate reference_entry 1 references doc.

(** [main] up to [doc.save]: the document that is written out. *)
Definition main : result DocumentT :=
  let doc := Document in
  let doc := setup_document doc in
  let doc := create_title_page doc in
  let doc := add_page_break doc in
  let doc := create_toc doc in
  let doc := add_page_break doc in
  let doc := create_introduction doc in
  let doc := add_page_break doc in
  let doc := create_section1 doc in
  let doc := add_page_break doc in
  let doc := create_section2 doc in
  let doc := add_page_break doc in
  let doc := create_section3 doc in
  let doc := add_page_break doc in
  let* doc := create_section4 doc in
  let doc := add_page_break doc in
  let doc := create_conclusion doc in
  let doc := add_page_break doc in
  let doc := create_references doc in
  Ok doc.

End Builders.

(** ** Observations used in the statements *)

(** The resolved formatting of a paragraph: its paragraph-level settings and
    the font settings of each of its runs, without any text. *)
Record RunStyle : Type := mkRunStyle {
  fontFamily : option string;
  fontFamilyEastAsia : option string;
  fontSize : option Length;
  isBold : option bool
}.

Record StyleRecord : Type := mkStyle {
  style_alignment : option WD_ALIGN_PARAGRAPH;
  style_lineSpacing : option Q;
  style_spaceBefore : option Length;
  style_spaceAfter : option Length;
  style_firstLineIndent : option Length;
  style_runs : list RunStyle
}.

Definition run_style (r : Run) : RunStyle :=
  mkRunStyle (font_name r) (rFonts_eastAsia r) (font_size r) (run_bold r).

Definition style_of (p : Paragraph) : StyleRecord :=
  mkStyle (alignment p) (line_spacing p) (space_before p) (space_after p)
          (first_line_indent p) (map run_style (runs p)).

(** All runs of a document: header and footer runs of every section, then
    the runs of the body, table cells included. *)
Definition block_paragraphs (b : Block) : list Paragraph :=
  match b with
  | BParagraph p => [p]
  | BTable t => flat_map cell_paragraphs (concat (table_rows t))
  end.

Definition block_runs (b : Block) : list Run :=
  flat_map runs (block_paragraphs b).

Definition section_runs (s : SectionT) : list Run :=
  flat_map runs (header_paragraphs s ++ footer_paragraphs s)%list.

Definition doc_runs (d : DocumentT) : list Run :=
  (flat_map section_runs (sections d) ++ flat_map block_runs (body d))%list.

Definition is_raw (c : RunChild) : bool :=
  match c with
  | w_raw _ => true
  | _ => false
  end.

(** The run holds at least one element appended below python-docx. *)
Definition has_raw (r : Run) : bool := existsb is_raw (r_children r).

(** [str.upper] restricted to ASCII: on a text of ASCII letters, digits and
    punctuation it agrees with the interpreter's. *)
Definition ascii_upper_char (c : ascii) : ascii :=
  let n := nat_of_ascii c in
  if (97 <=? n)%nat && (n <=? 122)%nat then ascii_of_nat (n - 32) else c.

Fixpoint ascii_upper (s : string) : string :=
  match s with
  | EmptyString => EmptyString
  | String c s' => String (ascii_upper_char c) (ascii_upper s')
  end.

(** What every entry of the table of contents looks like: no alignment is
    assigned, the first-line indent is 0, and the paragraph holds the title
    run followed by a run with a tab and the page string. *)
Definition toc_entry_shape (p : Paragraph) (entry : string * string) : Prop :=
  alignment p = None
  /\ first_line_indent p = Some (Cm 0)
  /\ exists title,
       map run_text (runs p) = [title; tab ++ snd entry]
       /\ (title = fst entry \/ title = tab ++ fst entry).

(** The cells the two loops of the table write. *)
Definition header_cell (text : string) : Cell :=
  cell_bold_runs (cell_set_text text new_cell).

Definition data_cell (text : string) : Cell := cell_set_text text new_cell.

Definition cell_runs (c : Cell) : list Run :=
  flat_map runs (cell_paragraphs c).

(** The texts of the runs of a cell. *)
Definition cell_texts (c : Cell) : list string := map run_text (cell_runs c).

(** No run of the document holds an element appended below python-docx. *)
Definition raw_free (d : DocumentT) : Prop :=
  Forall (fun r => has_raw r = false) (doc_runs d).

(** One step of a loop over a row of the table: the cell in column [c] of
    row [r] is fetched and receives [mk x]. *)
Definition row_body (mk : string -> Cell) (r : nat) (table : Table)
    (c : nat) (x : string) : result Table :=
  let* cell := table_cell table r c in
  Ok (table_put table r c (mk x)).

(** ** Cell margins *)

(** An XML element with children, as [set_cell_margins] builds it. *)
Local Unset Elimination Schemes.
Inductive XmlNode : Type :=
| xml_node (name : string) (attrs : list (string * string))
           (children : list XmlNode).
Local Set Elimination Schemes.

Definition xml_new (name : string) : XmlNode := xml_node name [] [].

Definition xml_set (n : XmlNode) (k v : string) : XmlNode :=
  match n with
  | xml_node name attrs children => xml_node name (attrib_set attrs k v) children
  end.

Definition xml_append (n child : XmlNode) : XmlNode :=
  match n with
  | xml_node name attrs children => xml_node name attrs (children ++ [child])%list
  end.

Definition xml_name (n : XmlNode) : string :=
  match n with xml_node name _ _ => name end.

Definition xml_attrs (n : XmlNode) : list (string * string) :=
  match n with xml_node _ attrs _ => attrs end.

Definition xml_children (n : XmlNode) : list XmlNode :=
  match n with xml_node _ _ children => children end.

(** [set_cell_margins(cell, top=0, start=0, bottom=0, end=0)], on the
    children of the cell's [w:tcPr] element, which is the only part of the
    cell it touches. *)
Definition set_cell_margins (tcPr : list XmlNode) (top start bottom end_ : Z)
  : list XmlNode :=
  let tcMar := xml_new "w:tcMar" in
  let tcMar :=
    fold_left
      (fun tcMar '(attr, val) =>
         let node := xml_new ("w:" ++ attr) in
         let node := xml_set node "w:w" (str_of_int val) in
         let node := xml_set node "w:type" "dxa" in
         xml_append tcMar node)
      [("top", top); ("start", start); ("bottom", bottom); ("end", end_)]
      tcMar in
  (tcPr ++ [tcMar])%list.

(** The margin element for four values. *)
Definition tcMar_of (top start bottom end_ : Z) : XmlNode :=
  xml_node "w:tcMar" []
    (map (fun '(attr, val) =>
            xml_node ("w:" ++ attr)
                     [("w:w", str_of_int val); ("w:type", "dxa")] [])
         [("top", top); ("start", start); ("bottom", bottom); ("end", end_)]).

(** ** Further observations *)

(** [element.get(name)] *)
Fixpoint attrib_get (a : list (string * string)) (k : string) : option string :=
  match a with
  | [] => None
  | (k', v) :: a' => if String.eqb k' k then Some v else attrib_get a' k
  end.

(** [d] with the blocks [bs] appended to its body. *)
Definition extend (d : DocumentT) (bs : list Block) : DocumentT :=
  mkDocument (sections d) (body d ++ bs)%list.

(** The page-break block of [add_page_break]. *)
Definition page_break_block : Block :=
  BParagraph
    (p_add_run (r_append (w_br BREAK_PAGE) (new_run EmptyString))
               new_paragraph).

(** The four shapes of run the script creates: a text run with both fonts
    and the size, the run of a page break, the page-number run of a
    table-of-contents entry, and the run of a table cell. *)
Inductive run_kind : Run -> Prop :=
| text_run (b : option bool) (s : string) :
    run_kind (mkRun b (Some "Times New Roman") (Some (Pt 14))
                    (Some "Times New Roman") (r_children (new_run s)))
| break_run :
    run_kind (mkRun None None None None [w_br BREAK_PAGE])
| toc_page_run (page : string) :
    run_kind (mkRun None (Some "Times New Roman") (Some (Pt 14)) None
                    (r_children (new_run (tab ++ page))))
| cell_run (b : option bool) (s : string) :
    run_kind (mkRun b None None None (r_children (new_run s))).

(** Every run of the document has one of the four shapes. *)
Definition well_formed_runs (d : DocumentT) : Prop :=
  Forall run_kind (doc_runs d).

(** The table has [rows] rows of [cols] cells each. *)
Definition rect (rows cols : nat) (t : Table) : Prop :=
  length (table_rows t) = rows
  /\ Forall (fun row => length row = cols) (table_rows t).

Definition is_nil {A : Type} (l : list A) : bool :=
  match l with
  | [] => true
  | _ => false
  end.

(** The data rows from table row [start] on stay inside a table of [rows]
    by [cols] cells; an empty data row touches no cell. *)
Fixpoint rows_fit (rows cols start : nat) (data : list (list string)) : bool :=
  match data with
  | [] => true
  | rd :: data' =>
      (is_nil rd || (start <? rows)%nat && (length rd <=? cols)%nat)
      && rows_fit rows cols (S start) data'
  end.

(** Header and data stay inside the table. *)
Definition table_fits (rows cols : nat) (headers : list string)
    (data : list (list string)) : bool :=
  (is_nil headers || (0 <? rows)%nat && (length headers <=? cols)%nat)
  && rows_fit rows cols 1 data.

(** The paragraph of bibliography entry number [i]. *)
Definition reference_shape (i : nat) (ref : string) (p : Paragraph) : Prop :=
  alignment p = Some JUSTIFY
  /\ line_spacing p = Some 1.5%Q
  /\ space_before p = Some (Pt 0)
  /\ space_after p = Some (Pt 0)
  /\ first_line_indent p = Some (Cm 0)
  /\ exists run,
       runs p = [run]
       /\ run_text run = str_of_int (Z.of_nat i) ++ ". " ++ ref
       /\ run_style run
          = mkRunStyle (Some "Times New Roman") (Some "Times New Roman")
                       (Some (Pt 14)) None.

(** The title starts with one of the digits 1 to 4 and a dot. *)
Definition numbered_subsection (item : string) : Prop :=
  exists c rest,
    In c ["1"; "2"; "3"; "4"]%char /\ item = String c (String "." rest).

(** [f] only appends, and what it appends does not depend on the document
    it is given. *)
Definition appender (f : DocumentT -> DocumentT) : Prop :=
  exists bs, forall d, f d = extend d bs.

Definition appenderM (g : DocumentT -> result DocumentT) : Prop :=
  exists bs, forall d, g d = Ok (extend d bs).

(** The blocks a builder produces, observed on the blank document. *)
Definition blocks_of (f : DocumentT -> DocumentT) : list Block :=
  body (f Document).

(** A run as [cell.text = ...] creates it: text at most, no font, no size;
    the bold flag may be set afterwards. *)
Definition plain_run (r : Run) : Prop :=
  exists b s, r = mkRun b None None None (r_children (new_run s)).

(** Every run in every cell of the table is plain. *)
Definition plain_cells (t : Table) : Prop :=
  Forall (Forall (fun c => Forall plain_run (cell_runs c))) (table_rows t).

(** ** Case mapping on printable ASCII and Cyrillic text *)

(** What [str.upper] does to a text of printable ASCII characters and of
    the Cyrillic characters U+0400 to U+045F, on the UTF-8 bytes: the
    letters a to z lose 32, the pairs D0 B0..BF (U+0430..U+043F) become
    D0 90..9F, the pairs D1 80..8F (U+0440..U+044F) become D0 A0..AF, the
    pairs D1 90..9F (U+0450..U+045F) become D0 80..8F, and everything else
    stays. *)
Definition is_printable (n : nat) : bool := (32 <=? n)%nat && (n <=? 126)%nat.

Definition is_ascii_lower (n : nat) : bool :=
  (97 <=? n)%nat && (n <=? 122)%nat.

(** UTF-8 pairs of U+0400..U+045F, and the lower-case ones among them. *)
Definition is_cyrillic (n m : nat) : bool :=
  (n =? 208)%nat && (128 <=? m)%nat && (m <=? 191)%nat
  || (n =? 209)%nat && (128 <=? m)%nat && (m <=? 159)%nat.

Definition is_cyrillic_lower (n m : nat) : bool :=
  (n =? 208)%nat && (176 <=? m)%nat && (m <=? 191)%nat
  || (n =? 209)%nat && (128 <=? m)%nat && (m <=? 159)%nat.

(** The upper-case partner of a lower-case pair. *)
Definition cyrillic_upper (n m : nat) : nat * nat :=
  if (n =? 208)%nat then (208, m - 32)
  else if (m <=? 143)%nat then (208, m + 32)
  else (208, m - 16).

(** The text consists of printable ASCII characters and of Cyrillic
    characters U+0400 to U+045F only. *)
Fixpoint basic_text (s : string) : bool :=
  match s with
  | EmptyString => true
  | String c s' =>
      let n := nat_of_ascii c in
      if is_printable n then basic_text s'
      else
        match s' with
        | String c2 s'' => is_cyrillic n (nat_of_ascii c2) && basic_text s''
        | EmptyString => false
        end
  end.

Fixpoint upper_basic (s : string) : string :=
  match s with
  | EmptyString => EmptyString
  | String c s' =>
      let n := nat_of_ascii c in
      if is_ascii_lower n
      then String (ascii_of_nat (n - 32)) (upper_basic s')
      else
        match s' with
        | String c2 s'' =>
            let m := nat_of_ascii c2 in
            if is_cyrillic_lower n m
            then String (ascii_of_nat (fst (cyrillic_upper n m)))
                   (String (ascii_of_nat (snd (cyrillic_upper n m)))
                           (upper_basic s''))
            else String c (upper_basic s')
        | EmptyString => String c EmptyString
        end
  end.


(** The eight lengths [setup_document] assigns. *)
Definition geometry (s : SectionT) :=
  (page_height s, page_width s, left_margin s, right_margin s,
   top_margin s, bottom_margin s, header_distance s, footer_distance s).

(** * Properties *)

(** ** Runs and text *)

Lemma append_empty_r (s : string) : s ++ EmptyString = s.
Proof. induction s as [|c s IH]; simpl; [reflexivity | now rewrite IH]. Qed.

Lemma run_text_new_run (s : string) : run_text (new_run s) = s.
Proof.
  destruct s as [|c s]; [reflexivity|].
  unfold run_text, new_run, run_set_text; simpl.
  now rewrite append_empty_r.
Qed.

Lemma has_raw_new_run (s : string) : has_raw (new_run s) = false.
Proof. now destruct s. Qed.

Lemma add_page_number_children (r : Run) :
  r_children (add_page_number r) = (r_children r ++ PAGE_field)%list.
Proof.
  unfold add_page_number, r_append; simpl.
  now rewrite <- !app_assoc.
Qed.

Lemma concat_replicate_comm {A : Type} (l : list A) (n : nat) :
  (concat (replicate n l) ++ l = l ++ concat (replicate n l))%list.
Proof.
  induction n as [|n IH]; cbn [replicate concat].
  - now rewrite app_nil_r.
  - now rewrite <- app_assoc, IH.
Qed.

Lemma add_page_number_iter_children (n : nat) (r : Run) :
  r_children (Nat.iter n add_page_number r)
  = (r_children r ++ concat (replicate n PAGE_field))%list.
Proof.
  induction n as [|n IH]; cbn [Nat.iter nat_rect replicate concat].
  - now rewrite app_nil_r.
  - change (nat_rect _ r (fun _ => add_page_number) n)
      with (Nat.iter n add_page_number r).
    rewrite add_page_number_children, IH, <- app_assoc.
    now rewrite concat_replicate_comm.
Qed.

(** C2. [add_page_number] appends to the run's children exactly the three
    field nodes, contiguously and in the order begin, instruction "PAGE",
    end; nothing else of the run changes; and [n] invocations append [n]
    copies of the same triplet. *)
Theorem add_page_number_appends_field (r : Run) :
  r_children (add_page_number r) = (r_children r ++ PAGE_field)%list
  /\ length PAGE_field = 3
  /\ PAGE_field
     = [ w_raw fldChar_begin; w_raw instrText_PAGE; w_raw fldChar_end ]
  /\ attrib fldChar_begin = [("w:fldCharType", "begin")]
  /\ etext instrText_PAGE = "PAGE"
  /\ attrib fldChar_end = [("w:fldCharType", "end")]
  /\ run_style (add_page_number r) = run_style r
  /\ carries_page_field (add_page_number r)
  /\ forall n : nat,
       r_children (Nat.iter n add_page_number r)
       = (r_children r ++ concat (replicate n PAGE_field))%list.
Proof.
  repeat split; try reflexivity.
  - apply add_page_number_children.
  - exists (r_children r), []. rewrite add_page_number_children.
    now rewrite app_nil_r.
  - intros n. apply add_page_number_iter_children.
Qed.

(** ** Headings *)


(** With the ASCII instance of [str.upper], "abc" is rendered "ABC". *)
Example add_heading_level1_abc :
  map run_text (runs (snd (add_heading ascii_upper Document "abc" 1)))
  = ["ABC"].
Proof. reflexivity. Qed.

(** *** Upper-casing *)

















(** The level-1 headings of the script are such texts and are in upper case
    already. *)
Example level1_headings_already_upper :
  Forall (fun h => basic_text h = true /\ upper_basic h = h)
    [ "СОДЕРЖАНИЕ"; "ВВЕДЕНИЕ"; "1 АНАЛИЗ ПРЕДМЕТНОЙ ОБЛАСТИ";
      "2 ПРОЕКТИРОВАНИЕ АРХИТЕКТУРЫ";
      "3 РАЗРАБОТКА ИНТЕГРАЦИОННОГО РЕШЕНИЯ";
      "4 РЕАЛИЗАЦИЯ И ТЕСТИРОВАНИЕ"; "ЗАКЛЮЧЕНИЕ";
      "СПИСОК ИСПОЛЬЗОВАННЫХ ИСТОЧНИКОВ" ].
Proof. repeat constructor. Qed.



(** C10. Any level other than 1 gives exactly the level-2 heading:
    justified, bold, text unchanged, 14pt, 12pt before, 6pt after, first
    line indented by 1.25cm; in particular it is not the centered level-1
    style. *)
Theorem add_heading_other_levels (str_upper : string -> string)
    (doc : DocumentT) (text : string) (level : Z) :
  level <> 1%Z ->
  let p := snd (add_heading str_upper doc text level) in
  add_heading str_upper doc text level = add_heading str_upper doc text 2
  /\ body (fst (add_heading str_upper doc text level))
     = (body doc ++ [BParagraph p])%list
  /\ alignment p = Some JUSTIFY
  /\ alignment p <> Some CENTER
  /\ line_spacing p = Some 1.5%Q
  /\ space_before p = Some (Pt 12)
  /\ space_after p = Some (Pt 6)
  /\ first_line_indent p = Some (Cm 1.25)
  /\ exists run,
       runs p = [run]
       /\ run_text run = text
       /\ run_bold run = Some true
       /\ font_name run = Some "Times New Roman"
       /\ font_size run = Some (Pt 14).
Proof.
  intros Hlevel. unfold add_heading.
  destruct (Z.eqb_spec level 1) as [E|_]; [contradiction|].
  simpl. repeat split; try discriminate.
  eexists. split; [reflexivity|].
  repeat split. apply run_text_new_run.
Qed.

Lemma add_heading_other_levels_witness :
  let h := fun level => snd (add_heading ascii_upper Document "Abc" level) in
  (alignment (h 0%Z) = Some JUSTIFY /\ map run_text (runs (h 0%Z)) = ["Abc"])
  /\ (alignment (h 3%Z) = Some JUSTIFY)
  /\ (alignment (h (-1)%Z) = Some JUSTIFY).
Proof.
  pose proof (add_heading_other_levels ascii_upper Document "Abc" 0
                ltac:(discriminate)) as H0.
  pose proof (add_heading_other_levels ascii_upper Document "Abc" 3
                ltac:(discriminate)) as H3.
  pose proof (add_heading_other_levels ascii_upper Document "Abc" (-1)
                ltac:(discriminate)) as Hm.
  simpl in H0, H3, Hm.
  repeat split; first [apply H0 | apply H3 | apply Hm | reflexivity].
Defined.

(** ** List items *)

(** The claim "every supplied ordinal [n] is rendered as the prefix [n) ]"
    fails at the ordinal 0, which the test [if number:] treats like a
    missing ordinal. *)
Lemma add_list_item_zero_counterexample :
  let p := snd (add_list_item Document "item" (Some 0%Z)) in
  map run_text (runs p) = ["– item"]
  /\ map run_text (runs p) <> [str_of_int 0 ++ ") " ++ "item"].
Proof. split; [reflexivity | discriminate]. Qed.

(** C4 (amended). For every text and every non-zero ordinal [n] the run text
    is [n) ] followed by the text, and without an ordinal it is the dash
    prefix followed by the text; in both cases the paragraph is justified,
    14pt, with a first-line indent of 1.25cm. *)
Theorem add_list_item_prefix (doc : DocumentT) (text : string) (n : Z) :
  n <> 0%Z ->
  let numbered := snd (add_list_item doc text (Some n)) in
  let dashed := snd (add_list_item doc text None) in
  map run_text (runs numbered) = [str_of_int n ++ ") " ++ text]
  /\ map run_text (runs dashed) = ["– " ++ text]
  /\ body (fst (add_list_item doc text (Some n)))
     = (body doc ++ [BParagraph numbered])%list
  /\ body (fst (add_list_item doc text None))
     = (body doc ++ [BParagraph dashed])%list
  /\ forall p, p = numbered \/ p = dashed ->
       alignment p = Some JUSTIFY
       /\ first_line_indent p = Some (Cm 1.25)
       /\ map font_size (runs p) = [Some (Pt 14)]
       /\ map font_name (runs p) = [Some "Times New Roman"].
Proof.
  intros Hn. unfold add_list_item, truthy_int.
  destruct (Z.eqb_spec n 0) as [E|_]; [contradiction|].
  cbn [negb snd fst]. repeat split.
  - change ([run_text (new_run (str_of_int n ++ ") " ++ text))]
            = [str_of_int n ++ ") " ++ text]).
    now rewrite run_text_new_run.
  - change ([run_text (new_run ("– " ++ text))] = ["– " ++ text]).
    now rewrite run_text_new_run.
  - destruct H as [-> | ->]; reflexivity.
  - destruct H as [-> | ->]; reflexivity.
  - destruct H as [-> | ->]; reflexivity.
  - destruct H as [-> | ->]; reflexivity.
Qed.

(** Ordinal 3 gives the prefix "3) ". *)
Lemma add_list_item_prefix_witness :
  map run_text (runs (snd (add_list_item Document "item" (Some 3%Z))))
  = ["3) item"]
  /\ map run_text (runs (snd (add_list_item Document "item" None)))
     = ["– item"].
Proof.
  pose proof (add_list_item_prefix Document "item" 3 ltac:(discriminate))
    as H.
  cbv zeta in H. destruct H as (H3 & Hd & _).
  split; [exact H3 | exact Hd].
Defined.

(** ** Style resolution *)

(** C8. The style given to a heading, a body paragraph or a list item is a
    function of the block kind and its flags alone: it does not depend on
    the document built so far, on the text, on the ordinal of a list item or
    on the case mapping, and the block is appended behind an unchanged
    prefix. *)
Theorem style_resolution_deterministic
    (up1 up2 : string -> string) (d1 d2 : DocumentT) (t1 t2 : string) :
  (forall level : Z,
      style_of (snd (add_heading up1 d1 t1 level))
      = style_of (snd (add_heading up2 d2 t2 level)))
  /\ (forall bold indent : bool,
         style_of (snd (add_paragraph d1 t1 bold indent))
         = style_of (snd (add_paragraph d2 t2 bold indent)))
  /\ (forall n1 n2 : option Z,
         style_of (snd (add_list_item d1 t1 n1))
         = style_of (snd (add_list_item d2 t2 n2)))
  /\ (forall level : Z,
         body (fst (add_heading up1 d1 t1 level))
         = (body d1 ++ [BParagraph (snd (add_heading up1 d1 t1 level))])%list)
  /\ (forall bold indent : bool,
         body (fst (add_paragraph d1 t1 bold indent))
         = (body d1 ++ [BParagraph (snd (add_paragraph d1 t1 bold indent))])%list)
  /\ (forall n : option Z,
         body (fst (add_list_item d1 t1 n))
         = (body d1 ++ [BParagraph (snd (add_list_item d1 t1 n))])%list).
Proof.
  split; [|split; [|split; [|split; [|split]]]].
  - intros level. unfold add_heading.
    destruct (level =? 1)%Z; reflexivity.
  - intros bold indent. reflexivity.
  - intros n1 n2. unfold add_list_item.
    destruct (truthy_int n1), (truthy_int n2), n1, n2; reflexivity.
  - intros level. unfold add_heading.
    destruct (level =? 1)%Z; reflexivity.
  - intros bold indent. reflexivity.
  - intros n. reflexivity.
Qed.

(** ** Table of contents *)

Lemma toc_entry_body (doc : DocumentT) (item page : string) :
  exists p,
    body (toc_entry doc item page) = (body doc ++ [BParagraph p])%list
    /\ toc_entry_shape p (item, page).
Proof.
  unfold toc_entry. eexists. split; [reflexivity|].
  unfold toc_entry_shape. split; [reflexivity|]. split; [reflexivity|].
  destruct (existsb (fun pre => String.prefix pre item)
                    ["1."; "2."; "3."; "4."]).
  - exists (tab ++ item). split; [|now right].
    change ([run_text (new_run (tab ++ item)); run_text (new_run (tab ++ page))]
            = [tab ++ item; tab ++ page]).
    now rewrite !run_text_new_run.
  - exists item. split; [|now left].
    change ([run_text (new_run item); run_text (new_run (tab ++ page))]
            = [item; tab ++ page]).
    now rewrite !run_text_new_run.
Qed.

Lemma toc_loop_body (items : list (string * string)) (doc : DocumentT) :
  exists entries,
    body (fold_left (fun doc '(item, page) => toc_entry doc item page)
                    items doc)
    = (body doc ++ map BParagraph entries)%list
    /\ Forall2 toc_entry_shape entries items.
Proof.
  revert doc. induction items as [|[item page] items IH]; intros doc.
  - exists []. split; [now rewrite app_nil_r | constructor].
  - destruct (toc_entry_body doc item page) as (p & Hp & Hshape).
    destruct (IH (toc_entry doc item page)) as (entries & He & Hall).
    exists (p :: entries). split; [|now constructor].
    cbn [fold_left]. rewrite He, Hp, <- app_assoc. reflexivity.
Qed.

(** The claim "every entry of the table of contents is justified" fails on
    the first entry that [create_toc] appends. *)
Lemma create_toc_not_justified_counterexample :
  exists p,
    body (create_toc ascii_upper Document) !! 1%nat = Some (BParagraph p)
    /\ map run_text (runs p) = ["ВВЕДЕНИЕ"; tab ++ "3"]
    /\ alignment p = None
    /\ alignment p <> Some JUSTIFY.
Proof.
  eexists. split; [vm_compute; reflexivity|].
  split; [reflexivity|]. split; [reflexivity | discriminate].
Qed.

(** C5 (amended). [create_toc] appends the heading and then one paragraph per
    entry, in order; every entry paragraph has no alignment assigned (it is
    not justified), a first-line indent of 0, and a tab between the title
    text and the literal page string. *)
Theorem create_toc_entries (str_upper : string -> string) (doc : DocumentT) :
  exists heading entries,
    body (create_toc str_upper doc)
    = (body doc ++ BParagraph heading :: map BParagraph entries)%list
    /\ heading = snd (add_heading str_upper doc "СОДЕРЖАНИЕ" 1)
    /\ Forall2 toc_entry_shape entries toc_items.
Proof.
  unfold create_toc.
  destruct (toc_loop_body toc_items
              (fst (add_heading str_upper doc "СОДЕРЖАНИЕ" 1)))
    as (entries & He & Hall).
  eexists _, entries. split; [|split; [reflexivity | exact Hall]].
  cbv zeta. rewrite He. cbn [add_heading Z.eqb Pos.eqb fst snd body doc_append].
  now rewrite <- app_assoc.
Qed.

(** ** The table loops *)

Lemma table_eta (t : Table) : mkTable (table_style t) (table_rows t) = t.
Proof. now destruct t. Qed.

Lemma alter_as_insert {A : Type} (f : A -> A) (l : list A) (i : nat) (x : A) :
  l !! i = Some x -> alter f i l = <[i := f x]> l.
Proof.
  revert i. induction l as [|y l IH]; intros [|i] H; try discriminate.
  - injection H as ->. reflexivity.
  - cbn. f_equal. now apply IH.
Qed.

Lemma insert_middle {A : Type} (l1 l2 : list A) (x y : A) :
  <[length l1 := y]> (l1 ++ x :: l2)%list = (l1 ++ y :: l2)%list.
Proof.
  rewrite insert_app_r_alt by lia. now rewrite Nat.sub_diag.
Qed.

Section RowLoop.

Variable mk : string -> Cell.
Variable r : nat.

Lemma row_body_write (t : Table) (done rest : list Cell) (c : Cell)
    (x : string) :
  table_rows t !! r = Some (done ++ c :: rest)%list ->
  row_body mk r t (length done) x
  = Ok (mkTable (table_style t)
                (<[r := (done ++ mk x :: rest)%list]> (table_rows t))).
Proof.
  intros Hrow. unfold row_body, table_cell, table_put. rewrite Hrow.
  rewrite list_lookup_middle by reflexivity. cbn [bind].
  rewrite (alter_as_insert _ _ _ _ Hrow), insert_middle. reflexivity.
Qed.

Lemma row_loop (xs : list string) :
  forall (done rest : list Cell) (t : Table),
    table_rows t !! r = Some (done ++ rest)%list ->
    length xs <= length rest ->
    for_enumerateM (row_body mk r) (length done) xs t
    = Ok (mkTable (table_style t)
            (<[r := (done ++ map mk xs ++ drop (length xs) rest)%list]>
               (table_rows t))).
Proof.
  induction xs as [|x xs IH]; intros done rest t Hrow Hlen.
  - cbn [for_enumerateM map length drop app].
    rewrite list_insert_id by exact Hrow. now rewrite table_eta.
  - destruct rest as [|c rest]; [cbn in Hlen; lia|].
    cbn [for_enumerateM]. rewrite (row_body_write t done rest c x Hrow).
    cbn [bind].
    assert (Hr : r < length (table_rows t)) by (eapply lookup_lt_Some; eauto).
    replace (S (length done)) with (length (done ++ [mk x])%list)
      by (rewrite length_app; cbn; lia).
    rewrite (IH (done ++ [mk x])%list rest).
    + cbn [table_style table_rows map length drop].
      rewrite list_insert_insert_eq, <- app_assoc. reflexivity.
    + cbn [table_rows]. rewrite list_lookup_insert_eq by exact Hr.
      now rewrite <- app_assoc.
    + cbn in Hlen. lia.
Qed.

End RowLoop.

Lemma fill_header_row_ok (t : Table) (row : list Cell) (headers : list string) :
  table_rows t !! 0%nat = Some row ->
  length headers <= length row ->
  fill_header_row t headers
  = Ok (mkTable (table_style t)
          (<[0%nat := (map header_cell headers ++ drop (length headers) row)%list]>
             (table_rows t))).
Proof.
  intros Hrow Hlen.
  exact (row_loop header_cell 0 headers [] row t Hrow Hlen).
Qed.

Lemma fill_data_loop (r0 : list Cell) (data : list (list string)) :
  forall (pre : list (list Cell)) (t : Table),
    table_rows t = (pre ++ replicate (length data) r0)%list ->
    Forall (fun rd => length rd <= length r0) data ->
    for_enumerateM
      (fun table row_idx row_data =>
         for_enumerateM
           (fun table col_idx cell_data =>
              let* cell := table_cell table row_idx col_idx in
              Ok (table_put table row_idx col_idx
                            (cell_set_text cell_data cell)))
           0 row_data table)
      (length pre) data t
    = Ok (mkTable (table_style t)
            (pre ++ map (fun rd => map data_cell rd ++ drop (length rd) r0)
                        data)%list).
Proof.
  induction data as [|rd data IH]; intros pre t Hrows Hwidth.
  - cbn [for_enumerateM map length replicate] in *.
    rewrite app_nil_r in *. rewrite <- Hrows. now rewrite table_eta.
  - apply Forall_cons in Hwidth as [Hrd Hwidth].
    cbn [for_enumerateM length replicate] in *.
    assert (Hrow : table_rows t !! length pre = Some ([] ++ r0)%list).
    { rewrite Hrows. now apply list_lookup_middle. }
    pose proof (row_loop data_cell (length pre) rd [] r0 t Hrow Hrd) as Hinner.
    cbn [length app] in Hinner.
    change (for_enumerateM
              (fun table col_idx cell_data =>
                 let* cell := table_cell table (length pre) col_idx in
                 Ok (table_put table (length pre) col_idx
                               (cell_set_text cell_data cell)))
              0 rd t)
      with (for_enumerateM (row_body data_cell (length pre)) 0 rd t).
    rewrite Hinner. cbn [bind].
    replace (S (length pre))
      with (length (pre ++ [map data_cell rd ++ drop (length rd) r0])%list)
      by (rewrite length_app; cbn; lia).
    rewrite IH.
    + cbn [table_style map]. now rewrite <- app_assoc.
    + cbn [table_rows]. rewrite Hrows, insert_middle.
      now rewrite <- app_assoc.
    + exact Hwidth.
Qed.

(** The table built for a header and data rows that fit into [cols]
    columns: no exception, one header row and one row per data row, each
    padded on the right with untouched cells. *)
Lemma build_table_rows (cols : nat) (headers : list string)
    (data : list (list string)) :
  length headers <= cols ->
  Forall (fun rd => length rd <= cols) data ->
  build_table (S (length data)) cols headers data
  = Ok (mkTable (Some "Table Grid")
          ((map header_cell headers
              ++ replicate (cols - length headers) new_cell)%list
           :: map (fun rd => (map data_cell rd
                              ++ replicate (cols - length rd) new_cell)%list)
                  data)).
Proof.
  intros Hh Hd. unfold build_table.
  rewrite (fill_header_row_ok _ (replicate cols new_cell))
    by (cbn; rewrite ?length_replicate; auto).
  cbn [bind set_table_style add_table table_style table_rows replicate insert
       list_insert].
  unfold fill_data_rows.
  rewrite (fill_data_loop (replicate cols new_cell) data
             [(map header_cell headers
                 ++ drop (length headers) (replicate cols new_cell))%list]).
  - cbn [bind table_style app]. rewrite drop_replicate.
    do 3 f_equal. apply map_ext. intros rd. now rewrite drop_replicate.
  - reflexivity.
  - now rewrite length_replicate.
Qed.

Lemma lookup_map {A B : Type} (f : A -> B) (l : list A) (i : nat) :
  map f l !! i = option_map f (l !! i).
Proof.
  revert i. induction l as [|x l IH]; intros [|i]; cbn; auto.
Qed.

Lemma lookup_S {A : Type} (x : A) (l : list A) (i : nat) :
  (x :: l) !! S i = l !! i.
Proof. reflexivity. Qed.

Lemma Forall_map_all {A B : Type} (f : A -> B) (P : B -> Prop) (l : list A) :
  (forall x, P (f x)) -> Forall P (map f l).
Proof. intros H. induction l; constructor; auto. Qed.

Lemma cell_texts_data_cell (s : string) : cell_texts (data_cell s) = [s].
Proof.
  change (cell_texts (data_cell s)) with [run_text (new_run s)].
  now rewrite run_text_new_run.
Qed.

Lemma cell_texts_header_cell (s : string) : cell_texts (header_cell s) = [s].
Proof.
  change (cell_texts (header_cell s)) with [run_text (new_run s)].
  now rewrite run_text_new_run.
Qed.

Lemma header_cell_bold (s : string) :
  Forall (fun r => run_bold r = Some true) (cell_runs (header_cell s)).
Proof. repeat constructor. Qed.

Lemma data_cell_not_bold (s : string) :
  Forall (fun r => run_bold r <> Some true) (cell_runs (data_cell s)).
Proof. repeat constructor. discriminate. Qed.

(** ** Rows narrower than the header *)




(** ** Shape and boldness of a well-formed table *)

(** When [doc.add_table] is given one row more than there are data rows and
    as many columns as the header is wide, and every data row is as wide as
    the header, the table is built without error with these dimensions,
    holds the given texts, every run of the header row is bold, and no run
    of a data row is bold. *)
Lemma table_shape_and_bold (headers : list string)
    (data : list (list string)) :
  Forall (fun rd => length rd = length headers) data ->
  exists t,
    build_table (1 + length data) (length headers) headers data = Ok t
    /\ length (table_rows t) = 1 + length data
    /\ Forall (fun row => length row = length headers) (table_rows t)
    /\ map (map cell_texts) (table_rows t)
       = map (map (fun s => [s])) (headers :: data)
    /\ (forall row,
          table_rows t !! 0%nat = Some row ->
          Forall (fun c => Forall (fun r => run_bold r = Some true)
                                  (cell_runs c)) row)
    /\ (forall i row,
          table_rows t !! S i = Some row ->
          Forall (fun c => Forall (fun r => run_bold r <> Some true)
                                  (cell_runs c)) row).
Proof.
  intros Hwidth. eexists. split.
  { apply build_table_rows; [lia|].
    eapply Forall_impl; [exact Hwidth|]. cbn. intros rd ->. lia. }
  cbn [table_rows]. rewrite Nat.sub_diag. cbn [replicate].
  rewrite app_nil_r.
  assert (Hrows :
    map (fun rd => (map data_cell rd
                    ++ replicate (length headers - length rd) new_cell)%list)
        data
    = map (map data_cell) data).
  { induction Hwidth as [|rd data Hrd _ IH]; cbn [map]; [reflexivity|].
    rewrite IH, Hrd, Nat.sub_diag. cbn [replicate]. now rewrite app_nil_r. }
  rewrite Hrows. clear Hrows.
  split; [|split; [|split; [|split]]].
  - cbn [length]. now rewrite length_map.
  - constructor; [now rewrite length_map|].
    induction Hwidth as [|rd data Hrd _ IH]; cbn [map]; constructor; auto.
    now rewrite length_map.
  - cbn [map]. f_equal.
    + rewrite map_map. apply map_ext. intros s. apply cell_texts_header_cell.
    + rewrite map_map. apply map_ext. intros rd. rewrite map_map.
      apply map_ext. intros s. apply cell_texts_data_cell.
  - intros row Hrow. injection Hrow as <-.
    apply Forall_map_all. intros s. apply header_cell_bold.
  - intros i row Hrow. rewrite lookup_S, lookup_map in Hrow.
    destruct (data !! i) as [rd|]; [|discriminate].
    injection Hrow as <-.
    apply Forall_map_all. intros s. apply data_cell_not_bold.
Qed.

(** The claim "a header of width [w] and data rows of width [w] give
    [1 + len(data)] rows and [w] columns" fails on the two-column table of
    the specification: [doc.add_table(rows=4, cols=4)] fixes four rows and
    four columns whatever the header and the data are, and a fourth data
    row raises. *)
Lemma table_dimensions_counterexample :
  (exists t,
      build_table 4 4 ["A"; "B"] [["1"; "2"]; ["3"; "4"]] = Ok t
      /\ length (table_rows t) = 4
      /\ length (table_rows t) <> 1 + 2
      /\ Forall (fun row => length row = 4 /\ length row <> 2) (table_rows t)
      /\ map (map cell_texts) (table_rows t)
         = [ [["A"]; ["B"]; []; []];
             [["1"]; ["2"]; []; []];
             [["3"]; ["4"]; []; []];
             [[]; []; []; []] ])
  /\ build_table 4 4 ["A"; "B"; "C"; "D"]
       [ ["1"; "2"; "3"; "4"]; ["1"; "2"; "3"; "4"];
         ["1"; "2"; "3"; "4"]; ["1"; "2"; "3"; "4"] ]
     = Raise IndexError.
Proof.
  split; [|reflexivity].
  eexists. split; [vm_compute; reflexivity|].
  split; [reflexivity|]. split; [discriminate|].
  split; [|reflexivity].
  repeat constructor; discriminate.
Qed.

(** C7 (amended). For a header of width 4 and three data rows of width 4,
    the shape [doc.add_table(rows=4, cols=4)] is written for, the table is
    built without error, has [1 + len(data)] rows and as many columns as
    the header is wide, holds the given texts, every run of the header row
    is bold, and no run of a data row is bold. *)
Theorem table_shape_and_bold_4x4 (headers : list string)
    (data : list (list string)) :
  length headers = 4 ->
  length data = 3 ->
  Forall (fun rd => length rd = 4) data ->
  exists t,
    build_table 4 4 headers data = Ok t
    /\ length (table_rows t) = 1 + length data
    /\ Forall (fun row => length row = length headers) (table_rows t)
    /\ map (map cell_texts) (table_rows t)
       = map (map (fun s => [s])) (headers :: data)
    /\ (forall row,
          table_rows t !! 0%nat = Some row ->
          Forall (fun c => Forall (fun r => run_bold r = Some true)
                                  (cell_runs c)) row)
    /\ (forall i row,
          table_rows t !! S i = Some row ->
          Forall (fun c => Forall (fun r => run_bold r <> Some true)
                                  (cell_runs c)) row).
Proof.
  intros Hh Hd Hw.
  destruct (table_shape_and_bold headers data) as (t & Ht & Hrest).
  { now rewrite Hh. }
  exists t. split; [|exact Hrest].
  rewrite Hd, Hh in Ht. exact Ht.
Qed.

(** The table of section 4. *)
Lemma table_shape_and_bold_4x4_witness :
  exists t,
    build_table 4 4 section4_headers section4_data = Ok t
    /\ length (table_rows t) = 4
    /\ map (map cell_texts) (table_rows t)
       = [ [["Реализация"]; ["ns/op"]; ["B/op"]; ["allocs/op"]];
           [["MapCache"]; ["220"]; ["32"]; ["1"]];
           [["FilesystemCache"]; ["8000"]; ["512"]; ["5"]];
           [["SQLiteCache"]; ["78000"]; ["1024"]; ["12"]] ].
Proof.
  destruct (table_shape_and_bold_4x4 section4_headers section4_data)
    as (t & Ht & Hlen & _ & Htexts & _).
  - reflexivity.
  - reflexivity.
  - repeat constructor.
  - exists t. split; [exact Ht|]. split; [exact Hlen | exact Htexts].
Defined.

(** ** The document written by [main] *)

Lemma lookup_In {A : Type} (l : list A) (i : nat) (x : A) :
  l !! i = Some x -> In x l.
Proof.
  revert i. induction l as [|y l IH]; intros [|i] H; try discriminate.
  - injection H as ->. now left.
  - right. eapply IH. exact H.
Qed.

Lemma carries_page_field_has_raw (r : Run) :
  carries_page_field r -> has_raw r = true.
Proof.
  intros (pre & post & H). unfold has_raw. rewrite H, existsb_app.
  apply orb_true_iff. now right.
Qed.

Lemma has_raw_set_bold b r : has_raw (set_bold b r) = has_raw r.
Proof. reflexivity. Qed.

Lemma has_raw_set_font_name n r : has_raw (set_font_name n r) = has_raw r.
Proof. reflexivity. Qed.

Lemma has_raw_set_font_size n r : has_raw (set_font_size n r) = has_raw r.
Proof. reflexivity. Qed.

Lemma has_raw_set_eastAsia n r : has_raw (set_eastAsia n r) = has_raw r.
Proof. reflexivity. Qed.

Ltac run_raw_free :=
  rewrite ?has_raw_set_bold, ?has_raw_set_font_name, ?has_raw_set_font_size,
    ?has_raw_set_eastAsia;
  first [apply has_raw_new_run | reflexivity].

Lemma doc_runs_append (b : Block) (d : DocumentT) :
  doc_runs (doc_append b d) = (doc_runs d ++ block_runs b)%list.
Proof.
  unfold doc_runs, doc_append. cbn [sections body].
  rewrite flat_map_app. cbn [flat_map]. now rewrite app_nil_r, app_assoc.
Qed.

Lemma raw_free_append (b : Block) (d : DocumentT) :
  Forall (fun r => has_raw r = false) (block_runs b) ->
  raw_free d -> raw_free (doc_append b d).
Proof.
  intros Hb Hd. unfold raw_free. rewrite doc_runs_append.
  apply Forall_app. now split.
Qed.

Lemma raw_free_Document : raw_free Document.
Proof. constructor. Qed.

Lemma raw_free_setup_document (d : DocumentT) :
  raw_free d -> raw_free (setup_document d).
Proof.
  unfold raw_free, doc_runs, setup_document. cbn [sections body].
  intros H. erewrite flat_map_ext; [|reflexivity].
  rewrite flat_map_concat_map, map_map, <- flat_map_concat_map. exact H.
Qed.

Lemma raw_free_empty_paragraph (d : DocumentT) :
  raw_free d -> raw_free (doc_append (BParagraph new_paragraph) d).
Proof. apply raw_free_append. constructor. Qed.

Lemma raw_free_empty_paragraphs (n : nat) (d : DocumentT) :
  raw_free d ->
  raw_free (Nat.iter n (doc_append (BParagraph new_paragraph)) d).
Proof.
  intros H. induction n as [|n IH]; [exact H|].
  cbn [Nat.iter nat_rect]. now apply raw_free_empty_paragraph.
Qed.

Lemma raw_free_add_page_break (d : DocumentT) :
  raw_free d -> raw_free (add_page_break d).
Proof. apply raw_free_append. repeat constructor. Qed.

Lemma raw_free_line (d : DocumentT) (p : Paragraph) (s : string)
    (f : Run -> Run) :
  (forall r, has_raw (f r) = has_raw r) ->
  runs p = [] ->
  raw_free d ->
  raw_free (doc_append (BParagraph (p_add_run (f (new_run s)) p)) d).
Proof.
  intros Hf Hp. apply raw_free_append.
  unfold block_runs. cbn [block_paragraphs flat_map p_add_run runs].
  rewrite Hp. repeat constructor. rewrite Hf. apply has_raw_new_run.
Qed.

Section MainInvariant.

Variable str_upper : string -> string.

Lemma raw_free_add_heading d text level :
  raw_free d -> raw_free (fst (add_heading str_upper d text level)).
Proof.
  unfold add_heading. destruct (level =? 1)%Z; cbn [fst];
    apply raw_free_append; repeat constructor; run_raw_free.
Qed.

Lemma raw_free_add_paragraph d text bold indent :
  raw_free d -> raw_free (fst (add_paragraph d text bold indent)).
Proof.
  unfold add_paragraph. cbn [fst].
  apply raw_free_append; repeat constructor; run_raw_free.
Qed.

Lemma raw_free_add_list_item d text number :
  raw_free d -> raw_free (fst (add_list_item d text number)).
Proof.
  unfold add_list_item. cbn [fst].
  apply raw_free_append.
  destruct (truthy_int number), number; repeat constructor; run_raw_free.
Qed.

Lemma raw_free_toc_entry d item page :
  raw_free d -> raw_free (toc_entry d item page).
Proof.
  unfold toc_entry. apply raw_free_append.
  destruct (existsb _ _); repeat constructor; run_raw_free.
Qed.

Lemma raw_free_reference_entry d i ref :
  raw_free d -> raw_free (reference_entry d i ref).
Proof.
  unfold reference_entry. apply raw_free_append.
  repeat constructor; run_raw_free.
Qed.

Lemma raw_free_create_toc d : raw_free d -> raw_free (create_toc str_upper d).
Proof.
  intros H. unfold create_toc. cbv zeta.
  apply raw_free_add_heading with (text := "СОДЕРЖАНИЕ") (level := 1%Z) in H.
  revert H. generalize (fst (add_heading str_upper d "СОДЕРЖАНИЕ" 1)).
  induction toc_items as [|[item page] items IH]; intros d' H; [exact H|].
  cbn [fold_left]. apply IH. now apply raw_free_toc_entry.
Qed.

Lemma raw_free_for_references refs : forall start d,
  raw_free d -> raw_free (for_enumerate reference_entry start refs d).
Proof.
  induction refs as [|ref refs IH]; intros start d H; [exact H|].
  cbn [for_enumerate]. apply IH. now apply raw_free_reference_entry.
Qed.

Lemma raw_free_create_references d :
  raw_free d -> raw_free (create_references str_upper d).
Proof.
  intros H. unfold create_references. cbv zeta.
  apply raw_free_for_references. now apply raw_free_add_heading.
Qed.

Ltac raw_free_chain :=
  repeat lazymatch goal with
    | |- raw_free (fst (add_heading _ _ _ _)) => apply raw_free_add_heading
    | |- raw_free (fst (add_paragraph _ _ _ _)) =>
        apply raw_free_add_paragraph
    | |- raw_free (fst (add_list_item _ _ _)) => apply raw_free_add_list_item
    | |- raw_free (Nat.iter _ _ _) => apply raw_free_empty_paragraphs
    | |- raw_free (add_page_break _) => apply raw_free_add_page_break
    | |- raw_free (doc_append (BParagraph new_paragraph) _) =>
        apply raw_free_empty_paragraph
    | |- raw_free (doc_append (BParagraph _) _) =>
        apply raw_free_append; [repeat constructor; run_raw_free|]
    | H : raw_free ?d |- raw_free ?d => exact H
    end.

Lemma raw_free_create_title_page d :
  raw_free d -> raw_free (create_title_page d).
Proof. intros H. unfold create_title_page. cbv zeta. raw_free_chain. Qed.

Lemma raw_free_create_introduction d :
  raw_free d -> raw_free (create_introduction str_upper d).
Proof. intros H. unfold create_introduction. cbv zeta. raw_free_chain. Qed.

Lemma raw_free_create_section1 d :
  raw_free d -> raw_free (create_section1 str_upper d).
Proof. intros H. unfold create_section1. cbv zeta. raw_free_chain. Qed.

Lemma raw_free_create_section2 d :
  raw_free d -> raw_free (create_section2 str_upper d).
Proof. intros H. unfold create_section2. cbv zeta. raw_free_chain. Qed.

Lemma raw_free_create_section3 d :
  raw_free d -> raw_free (create_section3 str_upper d).
Proof. intros H. unfold create_section3. cbv zeta. raw_free_chain. Qed.

Lemma raw_free_create_conclusion d :
  raw_free d -> raw_free (create_conclusion str_upper d).
Proof. intros H. unfold create_conclusion. cbv zeta. raw_free_chain. Qed.

Lemma section4_table :
  exists t,
    build_table 4 4 section4_headers section4_data = Ok t
    /\ Forall (fun r => has_raw r = false) (block_runs (BTable t)).
Proof.
  eexists. split; [vm_compute; reflexivity|]. vm_compute.
  repeat constructor.
Qed.

Lemma raw_free_create_section4 d :
  raw_free d ->
  exists d', create_section4 str_upper d = Ok d' /\ raw_free d'.
Proof.
  intros H. destruct section4_table as (t & Ht & Hraw).
  unfold create_section4. cbv zeta. rewrite Ht. cbn [bind].
  eexists. split; [reflexivity|]. raw_free_chain.
  apply raw_free_append; [exact Hraw|]. raw_free_chain.
Qed.

Lemma main_raw_free :
  exists doc, main str_upper = Ok doc /\ raw_free doc.
Proof.
  unfold main. cbv zeta.
  match goal with
  | |- context [create_section4 str_upper ?d] =>
      destruct (raw_free_create_section4 d) as (d4 & E4 & H4)
  end.
  - apply raw_free_add_page_break, raw_free_create_section3,
      raw_free_add_page_break, raw_free_create_section2,
      raw_free_add_page_break, raw_free_create_section1,
      raw_free_add_page_break, raw_free_create_introduction,
      raw_free_add_page_break, raw_free_create_toc,
      raw_free_add_page_break, raw_free_create_title_page,
      raw_free_setup_document, raw_free_Document.
  - rewrite E4. cbn [bind]. eexists. split; [reflexivity|].
    apply raw_free_create_references, raw_free_add_page_break,
      raw_free_create_conclusion, raw_free_add_page_break, H4.
Qed.

End MainInvariant.

(** C1. [main] runs to completion, and the document it hands to [doc.save]
    carries the page-number field nowhere: no run of the body, of a table
    cell, of a header or of a footer holds the field triplet.
    [add_page_number] is never called. *)
Theorem main_document_has_no_page_field (str_upper : string -> string) :
  exists doc,
    main str_upper = Ok doc
    /\ forall r, In r (doc_runs doc) -> ~ carries_page_field r.
Proof.
  destruct (main_raw_free str_upper) as (doc & Hmain & Hraw).
  exists doc. split; [exact Hmain|].
  intros r Hin Hfield.
  apply carries_page_field_has_raw in Hfield.
  unfold raw_free in Hraw. rewrite List.Forall_forall in Hraw.
  specialize (Hraw r Hin). congruence.
Qed.

(** C9. In the document written by [main], the page-number run of the
    first entry of the table of contents has the Latin font Times New Roman
    but no East-Asian font, and the run of the first table cell has neither
    font assigned. *)
Theorem toc_and_table_runs_lack_east_asia (str_upper : string -> string) :
  exists doc,
    main str_upper = Ok doc
    /\ (exists r,
          In r (doc_runs doc)
          /\ run_text r = tab ++ "3"
          /\ font_name r = Some "Times New Roman"
          /\ rFonts_eastAsia r = None)
    /\ (exists r,
          In r (doc_runs doc)
          /\ run_text r = "Реализация"
          /\ font_name r = None
          /\ rFonts_eastAsia r = None).
Proof.
  eexists. split; [vm_compute; reflexivity|]. split.
  - eexists. split.
    + apply (lookup_In _ 17). vm_compute. reflexivity.
    + repeat split.
  - eexists. split.
    + apply (lookup_In _ 230). vm_compute. reflexivity.
    + repeat split.
Qed.

(** * Further properties of the code *)

(** ** Page geometry *)

Lemma extend_nil (d : DocumentT) : extend d [] = d.
Proof. destruct d. unfold extend. cbn. now rewrite app_nil_r. Qed.

Lemma extend_extend (d : DocumentT) (bs cs : list Block) :
  extend (extend d bs) cs = extend d (bs ++ cs)%list.
Proof. unfold extend. cbn. now rewrite app_assoc. Qed.

Lemma doc_append_extend (b : Block) (d : DocumentT) :
  doc_append b d = extend d [b].
Proof. reflexivity. Qed.

Lemma doc_runs_extend (d : DocumentT) (bs : list Block) :
  doc_runs (extend d bs) = (doc_runs d ++ flat_map block_runs bs)%list.
Proof.
  unfold doc_runs, extend. cbn [sections body].
  now rewrite flat_map_app, app_assoc.
Qed.

Lemma doc_runs_setup_document (d : DocumentT) :
  doc_runs (setup_document d) = doc_runs d.
Proof.
  unfold setup_document, doc_runs. cbn [sections body]. f_equal.
  rewrite !flat_map_concat_map, map_map. reflexivity.
Qed.

(** X1. [setup_document] touches the page geometry only: the number of
    sections, their header and footer content, the body and every run stay
    as they are.  It is idempotent, and the geometry it leaves does not
    depend on what was there before: any two sections of any two documents
    it has been applied to carry the same eight lengths. *)
Theorem setup_document_frame (d d' : DocumentT) :
  length (sections (setup_document d)) = length (sections d)
  /\ map header_paragraphs (sections (setup_document d))
     = map header_paragraphs (sections d)
  /\ map footer_paragraphs (sections (setup_document d))
     = map footer_paragraphs (sections d)
  /\ body (setup_document d) = body d
  /\ doc_runs (setup_document d) = doc_runs d
  /\ setup_document (setup_document d) = setup_document d
  /\ forall s s',
       In s (sections (setup_document d)) ->
       In s' (sections (setup_document d')) ->
       geometry s = geometry s'.
Proof.
  unfold setup_document. cbn [sections body].
  split; [now rewrite length_map|].
  split; [rewrite map_map; now apply map_ext|].
  split; [rewrite map_map; now apply map_ext|].
  split; [reflexivity|].
  split; [apply (doc_runs_setup_document d)|].
  split; [f_equal; rewrite map_map; now apply map_ext|].
  intros s s' Hs Hs'.
  apply in_map_iff in Hs as (s0 & <- & _).
  apply in_map_iff in Hs' as (s0' & <- & _).
  reflexivity.
Qed.

(** ** The field and the text of a run *)

Lemma string_app_assoc (a b c : string) : (a ++ b) ++ c = a ++ (b ++ c).
Proof. induction a as [|x a IH]; cbn; [reflexivity | now rewrite IH]. Qed.

Lemma children_text_app (cs ds : list RunChild) :
  children_text (cs ++ ds)%list = children_text cs ++ children_text ds.
Proof.
  induction cs as [|c cs IH]; [reflexivity|].
  destruct c; cbn; rewrite IH; [now rewrite string_app_assoc | | ];
    reflexivity.
Qed.

Lemma existsb_is_raw_PAGE_field (cs : list RunChild) :
  existsb is_raw (cs ++ PAGE_field)%list = true.
Proof. rewrite existsb_app. apply orb_true_iff. now right. Qed.

(** X4. Injecting the page-number field never changes what [run.text]
    reads, however often it is done, and it keeps the bold flag, fonts and
    size; afterwards the run holds raw XML, so a paragraph builder of this
    file never produces such a run. *)
Theorem add_page_number_keeps_text (n : nat) (r : Run) :
  run_text (Nat.iter n add_page_number r) = run_text r
  /\ run_style (Nat.iter n add_page_number r) = run_style r
  /\ has_raw (add_page_number r) = true
  /\ (forall s, add_page_number r <> new_run s).
Proof.
  split; [|split; [|split]].
  - unfold run_text. rewrite add_page_number_iter_children, children_text_app.
    assert (H : children_text (concat (replicate n PAGE_field)) = EmptyString).
    { induction n as [|n IH]; [reflexivity | exact IH]. }
    rewrite H. apply append_empty_r.
  - induction n as [|n IH]; [reflexivity|].
    cbn [Nat.iter nat_rect]. exact IH.
  - unfold has_raw. rewrite add_page_number_children.
    apply existsb_is_raw_PAGE_field.
  - intros s E.
    assert (H : has_raw (add_page_number r) = true).
    { unfold has_raw. rewrite add_page_number_children.
      apply existsb_is_raw_PAGE_field. }
    rewrite E, has_raw_new_run in H. discriminate.
Qed.

(** ** Cell margins *)

Lemma set_cell_margins_eq (tcPr : list XmlNode) (top start bottom end_ : Z) :
  set_cell_margins tcPr top start bottom end_
  = (tcPr ++ [tcMar_of top start bottom end_])%list.
Proof. reflexivity. Qed.

(** X6. [set_cell_margins] keeps every child the cell properties already
    have and adds one [w:tcMar] element last, with the four sides in the
    order top, start, bottom, end, each measured in dxa; it never replaces
    an earlier [w:tcMar], so [k] calls leave [k] margin elements and the
    last child holds the latest values. *)
Theorem set_cell_margins_appends (tcPr : list XmlNode)
    (top start bottom end_ top' start' bottom' end_' : Z) :
  let once := set_cell_margins tcPr top start bottom end_ in
  let twice := set_cell_margins once top' start' bottom' end_' in
  take (length tcPr) once = tcPr
  /\ length once = S (length tcPr)
  /\ last once = Some (tcMar_of top start bottom end_)
  /\ map xml_name (xml_children (tcMar_of top start bottom end_))
     = ["w:top"; "w:start"; "w:bottom"; "w:end"]
  /\ map (fun n => attrib_get (xml_attrs n) "w:w")
         (xml_children (tcMar_of top start bottom end_))
     = map (fun v => Some (str_of_int v)) [top; start; bottom; end_]
  /\ Forall (fun n => attrib_get (xml_attrs n) "w:type" = Some "dxa")
            (xml_children (tcMar_of top start bottom end_))
  /\ twice
     = (tcPr ++ [tcMar_of top start bottom end_;
                 tcMar_of top' start' bottom' end_'])%list
  /\ length (List.filter (fun n => String.eqb (xml_name n) "w:tcMar") twice)
     = 2 + length (List.filter (fun n => String.eqb (xml_name n) "w:tcMar")
                               tcPr).
Proof.
  cbv zeta. rewrite !set_cell_margins_eq.
  split; [now rewrite take_app_length|].
  split; [rewrite length_app; cbn; lia|].
  split; [apply last_snoc|].
  split; [reflexivity|]. split; [reflexivity|].
  split; [repeat constructor|].
  split; [now rewrite <- app_assoc|].
  rewrite <- app_assoc, List.filter_app, length_app. cbn. lia.
Qed.

(** ** Nesting in the table of contents *)

Lemma toc_prefix_rule (item : string) :
  existsb (fun pre => String.prefix pre item) ["1."; "2."; "3."; "4."] = true
  <-> numbered_subsection item.
Proof.
  unfold numbered_subsection.
  destruct item as [|a [|b rest]].
  - split; [discriminate | intros (c & r & _ & E); discriminate].
  - split.
    + cbn [existsb String.prefix].
      repeat match goal with
             | |- context [ascii_dec ?x ?y] => destruct (ascii_dec x y)
             end; discriminate.
    + intros (c & r & _ & E). discriminate.
  - assert (Hp : String.prefix EmptyString rest = true) by now destruct rest.
    cbn [existsb String.prefix].
    repeat match goal with
           | |- context [ascii_dec ?x ?y] => destruct (ascii_dec x y)
           end; subst; try congruence; rewrite ?Hp; cbn [orb];
      lazymatch goal with
      | |- true = true <-> _ =>
          split; [intros _ | reflexivity];
          eexists _, rest; split; [|reflexivity]; cbn; tauto
      | |- false = true <-> _ =>
          split; [discriminate|];
          intros (c & r & Hin & E); injection E; intros; subst;
          cbn in Hin; intuition congruence
      end.
Qed.

(** X7. An entry of the table of contents is one paragraph of two runs: the
    title and, after a tab, the page string.  The title is preceded by a tab
    exactly when it starts with one of the digits 1 to 4 followed by a dot;
    any other title, a subsection of a fifth section included, is written
    as it is.  The title run has both fonts, the page run only the Latin
    one. *)
Theorem toc_entry_indent_rule (doc : DocumentT) (item page : string) :
  exists p,
    toc_entry doc item page = extend doc [BParagraph p]
    /\ (numbered_subsection item ->
        map run_text (runs p) = [tab ++ item; tab ++ page])
    /\ (~ numbered_subsection item ->
        map run_text (runs p) = [item; tab ++ page])
    /\ map run_style (runs p)
       = [ mkRunStyle (Some "Times New Roman") (Some "Times New Roman")
                      (Some (Pt 14)) None;
           mkRunStyle (Some "Times New Roman") None (Some (Pt 14)) None ].
Proof.
  unfold toc_entry. eexists. split; [reflexivity|].
  pose proof (toc_prefix_rule item) as Hrule.
  destruct (existsb (fun pre => String.prefix pre item)
                    ["1."; "2."; "3."; "4."]).
  - split; [|split; [|reflexivity]].
    + intros _.
      change ([run_text (new_run (tab ++ item));
               run_text (new_run (tab ++ page))]
              = [tab ++ item; tab ++ page]).
      now rewrite !run_text_new_run.
    + intros Hn. exfalso. apply Hn. now apply Hrule.
  - split; [|split; [|reflexivity]].
    + intros Hn. apply Hrule in Hn. discriminate.
    + intros _.
      change ([run_text (new_run item); run_text (new_run (tab ++ page))]
              = [item; tab ++ page]).
      now rewrite !run_text_new_run.
Qed.

Lemma toc_entry_indent_rule_witness :
  (exists p,
      toc_entry Document "4.2 Тестирование" "21" = extend Document [BParagraph p]
      /\ map run_text (runs p) = [tab ++ "4.2 Тестирование"; tab ++ "21"])
  /\ (exists p,
        toc_entry Document "5.1 Appendix" "30" = extend Document [BParagraph p]
        /\ map run_text (runs p) = ["5.1 Appendix"; tab ++ "30"]).
Proof.
  split.
  - destruct (toc_entry_indent_rule Document "4.2 Тестирование" "21")
      as (p & Hp & Hyes & _ & _).
    exists p. split; [exact Hp|]. apply Hyes.
    eexists _, _. split; [|reflexivity]. cbn. tauto.
  - destruct (toc_entry_indent_rule Document "5.1 Appendix" "30")
      as (p & Hp & _ & Hno & _).
    exists p. split; [exact Hp|]. apply Hno.
    intros (c & r & Hin & E). injection E as <- _.
    cbn in Hin. intuition discriminate.
Defined.

(** ** The bibliography *)

Lemma reference_entry_body (d : DocumentT) (i : nat) (ref : string) :
  exists p,
    reference_entry d i ref = extend d [BParagraph p]
    /\ reference_shape i ref p.
Proof.
  unfold reference_entry. eexists. split; [reflexivity|].
  unfold reference_shape. do 5 (split; [reflexivity|]).
  eexists. split; [reflexivity|]. split; [|reflexivity].
  apply (run_text_new_run (str_of_int (Z.of_nat i) ++ ". " ++ ref)).
Qed.

Lemma reference_loop (refs : list string) :
  forall (start : nat) (d : DocumentT),
  exists entries,
    for_enumerate reference_entry start refs d
    = extend d (map BParagraph entries)
    /\ length entries = length refs
    /\ forall k ref,
         refs !! k = Some ref ->
         exists p, entries !! k = Some p /\ reference_shape (start + k) ref p.
Proof.
  induction refs as [|ref0 refs IH]; intros start d.
  - exists []. split; [now rewrite extend_nil|]. split; [reflexivity|].
    intros k ref H. destruct k; discriminate.
  - destruct (reference_entry_body d start ref0) as (p0 & Hp0 & Hshape0).
    destruct (IH (S start) (reference_entry d start ref0))
      as (entries & He & Hlen & Hall).
    exists (p0 :: entries). split; [|split].
    + cbn [for_enumerate map]. rewrite He, Hp0, extend_extend. reflexivity.
    + cbn [length]. now rewrite Hlen.
    + intros [|k] ref H.
      * injection H as <-. exists p0. split; [reflexivity|].
        now rewrite Nat.add_0_r.
      * destruct (Hall k ref H) as (p & Hp & Hshape).
        exists p. split; [exact Hp|].
        now replace (start + S k) with (S start + k) by lia.
Qed.

(** X8. The loop of [create_references] appends one paragraph per
    reference, in list order and behind an unchanged body; entry [k]
    (counted from 0) is numbered [start + k], so [create_references], which
    starts at 1, numbers the entries 1, 2, 3, ... after its heading.  Every
    entry is justified with a first-line indent of 0, and its single run
    reads the number, a dot, a space and the reference, in Times New Roman
    14pt for both fonts. *)
Theorem create_references_numbered (str_upper : string -> string)
    (d : DocumentT) (refs : list string) (start : nat) :
  (exists entries,
      for_enumerate reference_entry start refs d
      = extend d (map BParagraph entries)
      /\ length entries = length refs
      /\ forall k ref,
           refs !! k = Some ref ->
           exists p,
             entries !! k = Some p /\ reference_shape (start + k) ref p)
  /\ (exists heading entries,
        create_references str_upper d
        = extend d (BParagraph heading :: map BParagraph entries)
        /\ heading
           = snd (add_heading str_upper d
                              "СПИСОК ИСПОЛЬЗОВАННЫХ ИСТОЧНИКОВ" 1)
        /\ length entries = length references
        /\ forall k ref,
             references !! k = Some ref ->
             exists p,
               entries !! k = Some p /\ reference_shape (1 + k) ref p).
Proof.
  split; [apply reference_loop|].
  unfold create_references. cbv zeta.
  destruct (reference_loop references 1
              (fst (add_heading str_upper d
                                "СПИСОК ИСПОЛЬЗОВАННЫХ ИСТОЧНИКОВ" 1)))
    as (entries & He & Hlen & Hall).
  eexists _, entries. split; [|split; [reflexivity | split; assumption]].
  rewrite He. cbn [add_heading Z.eqb Pos.eqb fst snd].
  rewrite doc_append_extend, extend_extend. reflexivity.
Qed.

(** ** Index errors of the table loops *)

Section TableBounds.

Variables rows cols : nat.

Lemma rect_add_table : rect rows cols (add_table rows cols).
Proof.
  split; cbn [add_table table_rows].
  - apply length_replicate.
  - apply Forall_replicate, length_replicate.
Qed.

Lemma table_put_rect (t : Table) (r c : nat) (cell : Cell) :
  rect rows cols t -> rect rows cols (table_put t r c cell).
Proof.
  intros [Hlen Hall]. split; cbn [table_put table_rows].
  - now rewrite length_alter.
  - apply Forall_alter; [exact Hall|].
    intros row _ Hrow. now rewrite length_insert.
Qed.

Lemma table_cell_inside (t : Table) (r c : nat) :
  rect rows cols t -> r < rows -> c < cols ->
  exists cell, table_cell t r c = Ok cell.
Proof.
  intros [Hlen Hall] Hr Hc. unfold table_cell.
  destruct (lookup_lt_is_Some_2 (table_rows t) r) as [row Hrow]; [lia|].
  rewrite Hrow.
  pose proof (Forall_lookup_1 _ _ _ _ Hall Hrow) as Hw. cbn in Hw.
  destruct (lookup_lt_is_Some_2 row c) as [cell Hcell]; [lia|].
  rewrite Hcell. now exists cell.
Qed.

Lemma table_cell_outside (t : Table) (r c : nat) :
  rect rows cols t -> rows <= r \/ cols <= c ->
  table_cell t r c = Raise IndexError.
Proof.
  intros [Hlen Hall] Hout. unfold table_cell.
  destruct (table_rows t !! r) as [row|] eqn:Hrow; [|reflexivity].
  pose proof (Forall_lookup_1 _ _ _ _ Hall Hrow) as Hw. cbn in Hw.
  apply lookup_lt_Some in Hrow.
  rewrite lookup_ge_None_2 by lia. reflexivity.
Qed.

Lemma row_loop_inside (mk : string -> Cell) (r : nat) (xs : list string) :
  forall (start : nat) (t : Table),
    rect rows cols t ->
    xs = [] \/ (r < rows /\ start + length xs <= cols) ->
    exists t',
      for_enumerateM (row_body mk r) start xs t = Ok t'
      /\ rect rows cols t'
      /\ table_style t' = table_style t.
Proof.
  induction xs as [|x xs IH]; intros start t Hrect Hfit.
  - exists t. auto.
  - destruct Hfit as [Hnil | [Hr Hc]]; [discriminate|].
    cbn [length] in Hc. cbn [for_enumerateM]. unfold row_body at 1.
    destruct (table_cell_inside t r start Hrect) as [cell ->]; [lia..|].
    cbn [bind].
    destruct (IH (S start) (table_put t r start (mk x))) as (t' & E & H1 & H2).
    + now apply table_put_rect.
    + right. split; [exact Hr | lia].
    + exists t'. split; [exact E|]. split; [exact H1 | exact H2].
Qed.

Lemma row_loop_outside (mk : string -> Cell) (r : nat) (xs : list string) :
  forall (start : nat) (t : Table),
    rect rows cols t ->
    xs <> [] ->
    rows <= r \/ cols < start + length xs ->
    for_enumerateM (row_body mk r) start xs t = Raise IndexError.
Proof.
  induction xs as [|x xs IH]; intros start t Hrect Hne Hout; [contradiction|].
  cbn [length] in Hout. cbn [for_enumerateM]. unfold row_body at 1.
  destruct (le_lt_dec rows r) as [Hr|Hr].
  { rewrite table_cell_outside by auto. reflexivity. }
  destruct (le_lt_dec cols start) as [Hc|Hc].
  { rewrite table_cell_outside by auto. reflexivity. }
  destruct (table_cell_inside t r start Hrect Hr Hc) as [cell ->].
  cbn [bind]. apply IH.
  - now apply table_put_rect.
  - destruct xs; [cbn in Hout; lia | discriminate].
  - right. lia.
Qed.

Lemma row_fit_cases (r start : nat) (xs : list string) :
  let b := is_nil xs || (r <? rows)%nat && (start + length xs <=? cols)%nat in
  (b = true /\ (xs = [] \/ (r < rows /\ start + length xs <= cols)))
  \/ (b = false /\ xs <> [] /\ (rows <= r \/ cols < start + length xs)).
Proof.
  cbv zeta. destruct xs as [|x xs]; [left; auto|].
  cbn [is_nil orb].
  destruct (Nat.ltb_spec r rows), (Nat.leb_spec (start + length (x :: xs)) cols);
    cbn [andb]; [left | right | right | right];
    (split; [reflexivity|]); auto; split; try discriminate; lia.
Qed.

Lemma data_loop_bounds (data : list (list string)) :
  forall (start : nat) (t : Table),
    rect rows cols t ->
    match
      for_enumerateM
        (fun table row_idx row_data =>
           for_enumerateM
             (fun table col_idx cell_data =>
                let* cell := table_cell table row_idx col_idx in
                Ok (table_put table row_idx col_idx
                              (cell_set_text cell_data cell)))
             0 row_data table)
        start data t
    with
    | Ok t' =>
        rows_fit rows cols start data = true
        /\ rect rows cols t'
        /\ table_style t' = table_style t
    | Raise e => rows_fit rows cols start data = false
    end.
Proof.
  induction data as [|rd data IH]; intros start t Hrect; [cbn; auto|].
  cbn [for_enumerateM rows_fit].
  change (for_enumerateM
            (fun table col_idx cell_data =>
               let* cell := table_cell table start col_idx in
               Ok (table_put table start col_idx
                             (cell_set_text cell_data cell)))
            0 rd t)
    with (for_enumerateM (row_body data_cell start) 0 rd t).
  destruct (row_fit_cases start 0 rd) as [[Hb Hfit] | (Hb & Hne & Hout)];
    cbn [Nat.add] in Hb; rewrite Hb.
  - destruct (row_loop_inside data_cell start rd 0 t Hrect Hfit)
      as (t1 & -> & Hrect1 & Hstyle1).
    cbn [bind andb]. specialize (IH (S start) t1 Hrect1).
    destruct (for_enumerateM _ (S start) data t1); [|exact IH].
    destruct IH as (H1 & H2 & H3). rewrite H3. auto.
  - now rewrite (row_loop_outside data_cell start rd 0 t Hrect Hne Hout).
Qed.

(** The outcome of the table code against [table_fits]. *)
Lemma build_table_bounds (headers : list string)
    (data : list (list string)) :
  match build_table rows cols headers data with
  | Ok t =>
      table_fits rows cols headers data = true
      /\ rect rows cols t
      /\ table_style t = Some "Table Grid"
  | Raise e =>
      table_fits rows cols headers data = false /\ e = IndexError
  end.
Proof.
  unfold build_table, table_fits, fill_header_row, fill_data_rows.
  cbv zeta.
  set (t0 := set_table_style "Table Grid" (add_table rows cols)).
  assert (Hrect0 : rect rows cols t0) by exact rect_add_table.
  change (for_enumerateM
            (fun table i header =>
               let* cell := table_cell table 0 i in
               Ok (table_put table 0 i
                             (cell_bold_runs (cell_set_text header cell))))
            0 headers t0)
    with (for_enumerateM (row_body header_cell 0) 0 headers t0).
  destruct (row_fit_cases 0 0 headers) as [[Hb Hfit] | (Hb & Hne & Hout)];
    cbn [Nat.add] in Hb; rewrite Hb.
  - destruct (row_loop_inside header_cell 0 headers 0 t0 Hrect0 Hfit)
      as (t1 & -> & Hrect1 & Hstyle1).
    cbn [bind andb].
    pose proof (data_loop_bounds data 1 t1 Hrect1) as Hdata.
    destruct (for_enumerateM _ 1 data t1) as [t2|e]; cbn [bind].
    + destruct Hdata as (H1 & H2 & H3). rewrite H3, Hstyle1. auto.
    + split; [exact Hdata | now destruct e].
  - rewrite (row_loop_outside header_cell 0 headers 0 t0 Hrect0 Hne Hout).
    cbn [bind andb]. auto.
Qed.

End TableBounds.

(** X9. For header and data texts of printable ASCII and Cyrillic
    characters, which [cell.text] accepts, the table code raises exactly
    when a non-empty header or data row needs a cell outside the [rows] by
    [cols] table, and the exception is the [IndexError] of the index
    expression: the header when the table has no row or fewer columns than
    the header, the data row written to table row [1 + i] when that row
    does not exist or the data row is wider than the table.  An empty row
    touches no cell and never raises.  When the code succeeds the table
    still has exactly [rows] rows of [cols] cells and the style
    "Table Grid". *)
Theorem build_table_index_errors (rows cols : nat) (headers : list string)
    (data : list (list string)) :
  Forall (fun s => basic_text s = true) headers ->
  Forall (Forall (fun s => basic_text s = true)) data ->
  (table_fits rows cols headers data = true ->
   exists t,
     build_table rows cols headers data = Ok t
     /\ rect rows cols t
     /\ table_style t = Some "Table Grid")
  /\ (table_fits rows cols headers data = false ->
      build_table rows cols headers data = Raise IndexError).
Proof.
  intros _ _.
  pose proof (build_table_bounds rows cols headers data) as H.
  destruct (build_table rows cols headers data) as [t|e].
  - destruct H as (Hfit & Hrect & Hstyle). split.
    + intros _. exists t. auto.
    + intros Hno. congruence.
  - destruct H as (Hfit & ->). split.
    + intros Hyes. congruence.
    + reflexivity.
Qed.

Lemma build_table_index_errors_witness :
  (exists t,
      build_table 4 4 section4_headers section4_data = Ok t
      /\ rect 4 4 t)
  /\ build_table 4 4 section4_headers
       (section4_data ++ [["PebbleCache"; "9"; "9"; "9"]])%list
     = Raise IndexError
  /\ build_table 4 4 (section4_headers ++ ["time"])%list section4_data
     = Raise IndexError.
Proof.
  split; [|split].
  - destruct (build_table_index_errors 4 4 section4_headers section4_data)
      as [Hok _]; [repeat constructor .. |].
    destruct (Hok eq_refl) as (t & Ht & Hrect & _).
    exists t. split; [exact Ht | exact Hrect].
  - apply (build_table_index_errors 4 4 section4_headers
             (section4_data ++ [["PebbleCache"; "9"; "9"; "9"]])%list);
      [repeat constructor .. | reflexivity].
  - apply (build_table_index_errors 4 4 (section4_headers ++ ["time"])%list
             section4_data);
      [repeat constructor .. | reflexivity].
Defined.

(** A header wider than the table, a data row past the last table row, and
    a table without rows raise; empty rows past the end do not. *)
Example build_table_raises :
  build_table 4 4 ["a"; "b"; "c"; "d"; "e"] [] = Raise IndexError
  /\ build_table 2 1 ["a"] [["1"]; ["2"]] = Raise IndexError
  /\ build_table 0 3 ["a"] [] = Raise IndexError
  /\ build_table 2 1 ["a"] [["1"; "2"]] = Raise IndexError
  /\ (exists t, build_table 1 1 ["a"] [[]; []] = Ok t)
  /\ (exists t, build_table 0 0 [] [] = Ok t).
Proof. repeat split; eexists; reflexivity. Qed.

(** ** Builders only append *)

Lemma appender_blocks (f : DocumentT -> DocumentT) :
  appender f -> forall d, f d = extend d (blocks_of f).
Proof.
  intros [bs H] d. unfold blocks_of. rewrite (H Document), (H d).
  reflexivity.
Qed.

Lemma appender_id : appender (fun d => d).
Proof. exists []. intros d. now rewrite extend_nil. Qed.

Lemma appender_step (f g : DocumentT -> DocumentT) :
  appender f -> appender g -> appender (fun d => g (f d)).
Proof.
  intros [bs Hf] [cs Hg]. exists (bs ++ cs)%list. intros d.
  now rewrite Hf, Hg, extend_extend.
Qed.

Lemma appenderM_Ok (f : DocumentT -> DocumentT) :
  appender f -> appenderM (fun d => Ok (f d)).
Proof. intros [bs H]. exists bs. intros d. now rewrite H. Qed.

Lemma appender_doc_append (b : Block) : appender (doc_append b).
Proof. exists [b]. reflexivity. Qed.

Lemma appender_add_page_break : appender add_page_break.
Proof. exists [page_break_block]. reflexivity. Qed.

Lemma appender_iter (n : nat) (f : DocumentT -> DocumentT) :
  appender f -> appender (Nat.iter n f).
Proof.
  intros H. induction n as [|n IH]; [apply appender_id|].
  exact (appender_step (Nat.iter n f) f IH H).
Qed.

Lemma appender_add_paragraph text bold indent :
  appender (fun d => fst (add_paragraph d text bold indent)).
Proof. eexists. intros d. reflexivity. Qed.

Lemma appender_add_list_item text number :
  appender (fun d => fst (add_list_item d text number)).
Proof. eexists. intros d. reflexivity. Qed.

Lemma appender_toc_entry item page :
  appender (fun d => toc_entry d item page).
Proof. eexists. intros d. reflexivity. Qed.

Lemma appender_reference_entry i ref :
  appender (fun d => reference_entry d i ref).
Proof. eexists. intros d. reflexivity. Qed.

Lemma appender_toc_loop (items : list (string * string)) :
  appender (fold_left (fun doc '(item, page) => toc_entry doc item page) items).
Proof.
  induction items as [|[item page] items IH]; [apply appender_id|].
  exact (appender_step (fun d => toc_entry d item page) _
                       (appender_toc_entry item page) IH).
Qed.

Lemma appender_reference_loop (refs : list string) (start : nat) :
  appender (for_enumerate reference_entry start refs).
Proof.
  revert start. induction refs as [|ref refs IH]; intros start;
    [apply appender_id|].
  exact (appender_step (fun d => reference_entry d start ref) _
                       (appender_reference_entry start ref) (IH (S start))).
Qed.

Section AppendOnly.

Variable str_upper : string -> string.

Lemma appender_add_heading text level :
  appender (fun d => fst (add_heading str_upper d text level)).
Proof.
  unfold add_heading. destruct (level =? 1)%Z; eexists; intros d; reflexivity.
Qed.

Ltac appender_chain :=
  repeat lazymatch goal with
    | |- appender (fun d => d) => exact appender_id
    | |- appender (fun d => fst (add_heading _ (@?f d) ?t ?l)) =>
        refine (appender_step f _ _ (appender_add_heading t l))
    | |- appender (fun d => fst (add_paragraph (@?f d) ?t ?b ?i)) =>
        refine (appender_step f _ _ (appender_add_paragraph t b i))
    | |- appender (fun d => fst (add_list_item (@?f d) ?t ?n)) =>
        refine (appender_step f _ _ (appender_add_list_item t n))
    | |- appender (fun d => Nat.iter ?n ?g (@?f d)) =>
        refine (appender_step f _ _
                  (appender_iter n g (appender_doc_append _)))
    | |- appender (fun d => doc_append ?b (@?f d)) =>
        refine (appender_step f _ _ (appender_doc_append b))
    end.

Lemma appender_create_title_page : appender create_title_page.
Proof. unfold create_title_page. cbv zeta. appender_chain. Qed.

Lemma appender_create_toc : appender (create_toc str_upper).
Proof.
  unfold create_toc. cbv zeta.
  exact (appender_step _ _ (appender_add_heading _ _)
                       (appender_toc_loop toc_items)).
Qed.

Lemma appender_create_introduction : appender (create_introduction str_upper).
Proof. unfold create_introduction. cbv zeta. appender_chain. Qed.

Lemma appender_create_section1 : appender (create_section1 str_upper).
Proof. unfold create_section1. cbv zeta. appender_chain. Qed.

Lemma appender_create_section2 : appender (create_section2 str_upper).
Proof. unfold create_section2. cbv zeta. appender_chain. Qed.

Lemma appender_create_section3 : appender (create_section3 str_upper).
Proof. unfold create_section3. cbv zeta. appender_chain. Qed.

Lemma appender_create_conclusion : appender (create_conclusion str_upper).
Proof. unfold create_conclusion. cbv zeta. appender_chain. Qed.

Lemma appender_create_references : appender (create_references str_upper).
Proof.
  unfold create_references. cbv zeta.
  exact (appender_step _ _ (appender_add_heading _ _)
                       (appender_reference_loop references 1)).
Qed.

Lemma appenderM_create_section4 : appenderM (create_section4 str_upper).
Proof.
  destruct section4_table as (t & Ht & _).
  unfold create_section4. cbv zeta. rewrite Ht. cbn [bind].
  lazymatch goal with
  | |- appenderM (fun d => Ok (@?f d)) => refine (appenderM_Ok f _)
  end.
  appender_chain.
Qed.

End AppendOnly.

Lemma add_page_break_extend (d : DocumentT) :
  add_page_break d = extend d [page_break_block].
Proof. reflexivity. Qed.

(** X10. Every builder that appends paragraphs only does nothing but
    append, and what it appends does not depend on the document it is
    given: for every document [d] the result is [d], with its sections and
    all its earlier blocks unchanged, followed by the blocks the same
    builder produces on the blank document. *)
Theorem builders_append_only (str_upper : string -> string) (d : DocumentT) :
  create_title_page d = extend d (blocks_of create_title_page)
  /\ create_toc str_upper d = extend d (blocks_of (create_toc str_upper))
  /\ create_introduction str_upper d
     = extend d (blocks_of (create_introduction str_upper))
  /\ create_section1 str_upper d
     = extend d (blocks_of (create_section1 str_upper))
  /\ create_section2 str_upper d
     = extend d (blocks_of (create_section2 str_upper))
  /\ create_section3 str_upper d
     = extend d (blocks_of (create_section3 str_upper))
  /\ create_conclusion str_upper d
     = extend d (blocks_of (create_conclusion str_upper))
  /\ create_references str_upper d
     = extend d (blocks_of (create_references str_upper))
  /\ add_page_break d = extend d [page_break_block].
Proof.
  split; [apply appender_blocks, appender_create_title_page|].
  split; [apply appender_blocks, appender_create_toc|].
  split; [apply appender_blocks, appender_create_introduction|].
  split; [apply appender_blocks, appender_create_section1|].
  split; [apply appender_blocks, appender_create_section2|].
  split; [apply appender_blocks, appender_create_section3|].
  split; [apply appender_blocks, appender_create_conclusion|].
  split; [apply appender_blocks, appender_create_references|].
  reflexivity.
Qed.

(** X11. The statements of [main] before [doc.save] run through, and the
    document handed to [doc.save] is built like this: the blank document
    with the geometry of [setup_document], then the title page, the table
    of contents, the introduction and sections 1 to 3, each exactly as its
    builder produces it alone, then what [create_section4] appends to the
    document built so far, then the conclusion and the bibliography, again
    as their builders produce them alone; exactly one page break stands
    between two neighbours and none after the bibliography. *)
Theorem main_document_structure (str_upper : string -> string) :
  let before4 :=
    extend (setup_document Document)
      (blocks_of create_title_page
       ++ [page_break_block]
       ++ blocks_of (create_toc str_upper)
       ++ [page_break_block]
       ++ blocks_of (create_introduction str_upper)
       ++ [page_break_block]
       ++ blocks_of (create_section1 str_upper)
       ++ [page_break_block]
       ++ blocks_of (create_section2 str_upper)
       ++ [page_break_block]
       ++ blocks_of (create_section3 str_upper)
       ++ [page_break_block])%list in
  exists section4_blocks,
    create_section4 str_upper before4 = Ok (extend before4 section4_blocks)
    /\ main str_upper
       = Ok (extend before4
               (section4_blocks
                ++ [page_break_block]
                ++ blocks_of (create_conclusion str_upper)
                ++ [page_break_block]
                ++ blocks_of (create_references str_upper))%list).
Proof.
  cbv zeta.
  destruct (appenderM_create_section4 str_upper) as [bs4 H4].
  exists bs4. split; [apply H4|].
  unfold main. cbv zeta. rewrite H4. cbn [bind].
  rewrite (appender_blocks _ (appender_create_references str_upper)).
  rewrite (appender_blocks _ (appender_create_conclusion str_upper)).
  rewrite (appender_blocks _ (appender_create_section3 str_upper)).
  rewrite (appender_blocks _ (appender_create_section2 str_upper)).
  rewrite (appender_blocks _ (appender_create_section1 str_upper)).
  rewrite (appender_blocks _ (appender_create_introduction str_upper)).
  rewrite (appender_blocks _ (appender_create_toc str_upper)).
  rewrite (appender_blocks _ appender_create_title_page).
  rewrite !add_page_break_extend, !extend_extend, <- ?app_assoc.
  reflexivity.
Qed.

(** ** The shapes of runs *)

Lemma for_enumerateM_invariant {A St : Type} (I : St -> Prop)
    (body : St -> nat -> A -> result St) :
  (forall s i x s', I s -> body s i x = Ok s' -> I s') ->
  forall l start s s',
    I s -> for_enumerateM body start l s = Ok s' -> I s'.
Proof.
  intros Hbody. induction l as [|x l IH]; intros start s s' Hs H.
  - injection H as <-. exact Hs.
  - cbn [for_enumerateM] in H.
    destruct (body s start x) as [s1|e] eqn:E; [|discriminate].
    cbn [bind] in H. eapply IH; [|exact H]. eapply Hbody; eauto.
Qed.

Lemma table_put_cells (P : Cell -> Prop) (t : Table) (r c : nat)
    (cell : Cell) :
  Forall (Forall P) (table_rows t) -> P cell ->
  Forall (Forall P) (table_rows (table_put t r c cell)).
Proof.
  intros Hall Hcell. cbn [table_put table_rows].
  apply Forall_alter; [exact Hall|].
  intros row _ Hrow. now apply Forall_insert.
Qed.

Lemma header_cell_kind (s : string) :
  Forall run_kind (cell_runs (header_cell s)).
Proof. constructor; [exact (cell_run (Some true) s) | constructor]. Qed.

Lemma data_cell_kind (s : string) :
  Forall run_kind (cell_runs (data_cell s)).
Proof. constructor; [exact (cell_run None s) | constructor]. Qed.

Lemma table_block_runs (P : Run -> Prop) (t : Table) :
  Forall (Forall (fun c => Forall P (cell_runs c))) (table_rows t) ->
  Forall P (block_runs (BTable t)).
Proof.
  unfold block_runs. cbn [block_paragraphs]. intros Hrows.
  induction Hrows as [|row rows Hrow _ IH]; [constructor|].
  cbn [concat]. rewrite !flat_map_app. apply Forall_app. split; [|exact IH].
  clear IH. induction Hrow as [|c row Hc _ IH]; [constructor|].
  cbn [flat_map]. rewrite !flat_map_app. apply Forall_app. now split.
Qed.

Lemma plain_cells_put (t : Table) (r c : nat) (cell : Cell) :
  plain_cells t -> Forall plain_run (cell_runs cell) ->
  plain_cells (table_put t r c cell).
Proof.
  exact (table_put_cells (fun c => Forall plain_run (cell_runs c)) t r c cell).
Qed.

Lemma fill_header_row_plain (t t' : Table) (headers : list string) :
  plain_cells t -> fill_header_row t headers = Ok t' -> plain_cells t'.
Proof.
  unfold fill_header_row.
  apply (for_enumerateM_invariant plain_cells).
  intros s i x s' Hs Hput.
  destruct (table_cell s 0 i) as [cell|]; [|discriminate].
  cbn [bind] in Hput. injection Hput as <-.
  apply plain_cells_put; [exact Hs|].
  constructor; [now exists (Some true), x | constructor].
Qed.

Lemma fill_data_rows_plain (t t' : Table) (data : list (list string)) :
  plain_cells t -> fill_data_rows t data = Ok t' -> plain_cells t'.
Proof.
  unfold fill_data_rows.
  apply (for_enumerateM_invariant plain_cells).
  intros s row_idx rd s'.
  apply (for_enumerateM_invariant plain_cells).
  intros s0 i x s1 Hs0 Hput.
  destruct (table_cell s0 row_idx i) as [cell|]; [|discriminate].
  cbn [bind] in Hput. injection Hput as <-.
  apply plain_cells_put; [exact Hs0|].
  constructor; [now exists None, x | constructor].
Qed.

Lemma plain_run_kind (r : Run) : plain_run r -> run_kind r.
Proof. intros (b & s & ->). apply cell_run. Qed.

Lemma build_table_plain (rows cols : nat) (headers : list string)
    (data : list (list string)) (t : Table) :
  build_table rows cols headers data = Ok t -> plain_cells t.
Proof.
  intros Hbuild. unfold build_table in Hbuild. cbv zeta in Hbuild.
  destruct (fill_header_row _ headers) as [t1|] eqn:E1; [|discriminate].
  cbn [bind] in Hbuild.
  destruct (fill_data_rows t1 data) as [t2|] eqn:E2; [|discriminate].
  injection Hbuild as <-.
  eapply fill_data_rows_plain; [|exact E2].
  eapply fill_header_row_plain; [|exact E1].
  unfold plain_cells. cbn [set_table_style add_table table_rows].
  apply Forall_replicate, Forall_replicate. constructor.
Qed.

(** X12. Whenever the table code returns a table, for any dimensions,
    header and data, every run in every cell of it is a plain cell run: it
    has no Latin font, no East-Asian font and no size of its own, and holds
    at most its text.  Cells the loops did not reach hold no run at all. *)
Theorem build_table_cell_runs (rows cols : nat) (headers : list string)
    (data : list (list string)) (t : Table) :
  build_table rows cols headers data = Ok t ->
  plain_cells t
  /\ forall r, In r (block_runs (BTable t)) ->
       font_name r = None /\ rFonts_eastAsia r = None /\ font_size r = None
       /\ has_raw r = false /\ run_kind r.
Proof.
  intros Hbuild.
  pose proof (build_table_plain _ _ _ _ t Hbuild) as Hcells.
  split; [exact Hcells|].
  intros r Hin.
  pose proof (table_block_runs _ t Hcells) as Hall.
  rewrite List.Forall_forall in Hall.
  pose proof (Hall r Hin) as Hplain.
  pose proof (plain_run_kind r Hplain) as Hkind.
  destruct Hplain as (b & s & ->).
  repeat split; [apply (has_raw_new_run s) | exact Hkind].
Qed.

Lemma build_table_cell_runs_witness :
  exists t,
    build_table 4 4 section4_headers section4_data = Ok t
    /\ plain_cells t.
Proof.
  eexists. split; [vm_compute; reflexivity|].
  refine (proj1 (build_table_cell_runs 4 4 section4_headers section4_data
                   _ _)).
  vm_compute. reflexivity.
Defined.

Lemma well_formed_append (b : Block) (d : DocumentT) :
  Forall run_kind (block_runs b) ->
  well_formed_runs d -> well_formed_runs (doc_append b d).
Proof.
  intros Hb Hd. unfold well_formed_runs. rewrite doc_runs_append.
  apply Forall_app. now split.
Qed.

Lemma well_formed_Document : well_formed_runs Document.
Proof. constructor. Qed.

Lemma well_formed_setup_document (d : DocumentT) :
  well_formed_runs d -> well_formed_runs (setup_document d).
Proof.
  unfold well_formed_runs. now rewrite doc_runs_setup_document.
Qed.

Ltac run_kind_exact :=
  lazymatch goal with
  | |- run_kind (set_eastAsia _ (set_font_size _ (set_font_name _
                   (set_bold ?b (new_run ?s))))) =>
      exact (text_run (Some b) s)
  | |- run_kind (set_eastAsia _ (set_font_size _ (set_font_name _
                   (new_run ?s)))) =>
      exact (text_run None s)
  | |- run_kind (set_font_size _ (set_font_name _ (new_run (tab ++ ?page)))) =>
      exact (toc_page_run page)
  | |- run_kind (r_append (w_br BREAK_PAGE) (new_run EmptyString)) =>
      exact break_run
  end.

Ltac block_kind :=
  unfold block_runs;
  cbn [block_paragraphs flat_map runs set_paragraph_format p_add_run
       set_alignment new_paragraph app];
  repeat (constructor; [run_kind_exact|]); constructor.

Lemma well_formed_empty_paragraph (d : DocumentT) :
  well_formed_runs d ->
  well_formed_runs (doc_append (BParagraph new_paragraph) d).
Proof. apply well_formed_append. constructor. Qed.

Lemma well_formed_empty_paragraphs (n : nat) (d : DocumentT) :
  well_formed_runs d ->
  well_formed_runs (Nat.iter n (doc_append (BParagraph new_paragraph)) d).
Proof.
  intros H. induction n as [|n IH]; [exact H|].
  cbn [Nat.iter nat_rect]. now apply well_formed_empty_paragraph.
Qed.

Lemma well_formed_add_page_break (d : DocumentT) :
  well_formed_runs d -> well_formed_runs (add_page_break d).
Proof. apply well_formed_append. block_kind. Qed.

Lemma well_formed_add_paragraph d text bold indent :
  well_formed_runs d ->
  well_formed_runs (fst (add_paragraph d text bold indent)).
Proof.
  unfold add_paragraph. cbn [fst]. apply well_formed_append. block_kind.
Qed.

Lemma well_formed_add_list_item d text number :
  well_formed_runs d -> well_formed_runs (fst (add_list_item d text number)).
Proof.
  unfold add_list_item. cbn [fst]. apply well_formed_append.
  destruct (truthy_int number), number; block_kind.
Qed.

Lemma well_formed_toc_entry d item page :
  well_formed_runs d -> well_formed_runs (toc_entry d item page).
Proof.
  unfold toc_entry. apply well_formed_append.
  destruct (existsb _ _); block_kind.
Qed.

Lemma well_formed_reference_entry d i ref :
  well_formed_runs d -> well_formed_runs (reference_entry d i ref).
Proof. unfold reference_entry. apply well_formed_append. block_kind. Qed.

Lemma well_formed_reference_loop refs : forall start d,
  well_formed_runs d ->
  well_formed_runs (for_enumerate reference_entry start refs d).
Proof.
  induction refs as [|ref refs IH]; intros start d H; [exact H|].
  cbn [for_enumerate]. apply IH. now apply well_formed_reference_entry.
Qed.

Lemma run_kind_facts (r : Run) :
  run_kind r ->
  has_raw r = false
  /\ ((font_name r = Some "Times New Roman" /\ font_size r = Some (Pt 14))
      \/ (font_name r = None /\ font_size r = None
          /\ rFonts_eastAsia r = None))
  /\ (rFonts_eastAsia r = font_name r
      \/ (rFonts_eastAsia r = None
          /\ exists page, run_text r = tab ++ page)).
Proof.
  intros [b s| |page|b s]; cbn [font_name font_size rFonts_eastAsia].
  - split; [apply (has_raw_new_run s)|]. split; [left | left]; auto.
  - split; [reflexivity|]. split; [right | left]; auto.
  - split; [apply (has_raw_new_run (tab ++ page))|].
    split; [left; auto|]. right. split; [reflexivity|].
    exists page. apply (run_text_new_run (tab ++ page)).
  - split; [apply (has_raw_new_run s)|]. split; [right | left]; auto.
Qed.

Section RunShapes.

Variable str_upper : string -> string.

Lemma well_formed_add_heading d text level :
  well_formed_runs d ->
  well_formed_runs (fst (add_heading str_upper d text level)).
Proof.
  unfold add_heading. destruct (level =? 1)%Z; cbn [fst];
    apply well_formed_append; block_kind.
Qed.

Ltac well_formed_chain :=
  repeat lazymatch goal with
    | |- well_formed_runs (fst (add_heading _ _ _ _)) =>
        apply well_formed_add_heading
    | |- well_formed_runs (fst (add_paragraph _ _ _ _)) =>
        apply well_formed_add_paragraph
    | |- well_formed_runs (fst (add_list_item _ _ _)) =>
        apply well_formed_add_list_item
    | |- well_formed_runs (Nat.iter _ _ _) =>
        apply well_formed_empty_paragraphs
    | |- well_formed_runs (add_page_break _) =>
        apply well_formed_add_page_break
    | |- well_formed_runs (doc_append (BParagraph new_paragraph) _) =>
        apply well_formed_empty_paragraph
    | |- well_formed_runs (doc_append (BParagraph _) _) =>
        apply well_formed_append; [block_kind|]
    | H : well_formed_runs ?d |- well_formed_runs ?d => exact H
    end.

Lemma well_formed_create_title_page d :
  well_formed_runs d -> well_formed_runs (create_title_page d).
Proof. intros H. unfold create_title_page. cbv zeta. well_formed_chain. Qed.

Lemma well_formed_create_toc d :
  well_formed_runs d -> well_formed_runs (create_toc str_upper d).
Proof.
  intros H. unfold create_toc. cbv zeta.
  apply well_formed_add_heading with (text := "СОДЕРЖАНИЕ") (level := 1%Z)
    in H.
  revert H. generalize (fst (add_heading str_upper d "СОДЕРЖАНИЕ" 1)).
  induction toc_items as [|[item page] items IH]; intros d' H; [exact H|].
  cbn [fold_left]. apply IH. now apply well_formed_toc_entry.
Qed.

Lemma well_formed_create_introduction d :
  well_formed_runs d -> well_formed_runs (create_introduction str_upper d).
Proof. intros H. unfold create_introduction. cbv zeta. well_formed_chain. Qed.

Lemma well_formed_create_section1 d :
  well_formed_runs d -> well_formed_runs (create_section1 str_upper d).
Proof. intros H. unfold create_section1. cbv zeta. well_formed_chain. Qed.

Lemma well_formed_create_section2 d :
  well_formed_runs d -> well_formed_runs (create_section2 str_upper d).
Proof. intros H. unfold create_section2. cbv zeta. well_formed_chain. Qed.

Lemma well_formed_create_section3 d :
  well_formed_runs d -> well_formed_runs (create_section3 str_upper d).
Proof. intros H. unfold create_section3. cbv zeta. well_formed_chain. Qed.

Lemma well_formed_create_conclusion d :
  well_formed_runs d -> well_formed_runs (create_conclusion str_upper d).
Proof. intros H. unfold create_conclusion. cbv zeta. well_formed_chain. Qed.

Lemma well_formed_create_references d :
  well_formed_runs d -> well_formed_runs (create_references str_upper d).
Proof.
  intros H. unfold create_references. cbv zeta.
  apply well_formed_reference_loop. now apply well_formed_add_heading.
Qed.

Lemma well_formed_create_section4 d :
  well_formed_runs d ->
  exists d', create_section4 str_upper d = Ok d' /\ well_formed_runs d'.
Proof.
  intros H. destruct section4_table as (t & Ht & _).
  pose proof (build_table_plain _ _ _ _ t Ht) as Hplain.
  unfold create_section4. cbv zeta. rewrite Ht. cbn [bind].
  eexists. split; [reflexivity|]. well_formed_chain.
  apply well_formed_append; [|well_formed_chain].
  apply table_block_runs.
  eapply Forall_impl; [exact Hplain|]. cbn. intros row Hrow.
  eapply Forall_impl; [exact Hrow|]. cbn. intros c Hc.
  eapply Forall_impl; [exact Hc|]. exact plain_run_kind.
Qed.

End RunShapes.

(** X13. The four run shapes are an invariant of every builder: started on
    any document all of whose runs are text runs with both fonts and 14pt,
    page-break runs, table-of-contents page runs or plain table-cell runs,
    each builder returns a document with the same property. *)
Theorem builders_keep_run_shapes (str_upper : string -> string)
    (d : DocumentT) :
  well_formed_runs d ->
  well_formed_runs (setup_document d)
  /\ well_formed_runs (add_page_break d)
  /\ (forall text level,
        well_formed_runs (fst (add_heading str_upper d text level)))
  /\ (forall text bold indent,
        well_formed_runs (fst (add_paragraph d text bold indent)))
  /\ (forall text number,
        well_formed_runs (fst (add_list_item d text number)))
  /\ well_formed_runs (create_title_page d)
  /\ well_formed_runs (create_toc str_upper d)
  /\ well_formed_runs (create_introduction str_upper d)
  /\ well_formed_runs (create_section1 str_upper d)
  /\ well_formed_runs (create_section2 str_upper d)
  /\ well_formed_runs (create_section3 str_upper d)
  /\ (exists d',
        create_section4 str_upper d = Ok d' /\ well_formed_runs d')
  /\ well_formed_runs (create_conclusion str_upper d)
  /\ well_formed_runs (create_references str_upper d).
Proof.
  intros H.
  split; [now apply well_formed_setup_document|].
  split; [now apply well_formed_add_page_break|].
  split; [intros; now apply well_formed_add_heading|].
  split; [intros; now apply well_formed_add_paragraph|].
  split; [intros; now apply well_formed_add_list_item|].
  split; [now apply well_formed_create_title_page|].
  split; [now apply well_formed_create_toc|].
  split; [now apply well_formed_create_introduction|].
  split; [now apply well_formed_create_section1|].
  split; [now apply well_formed_create_section2|].
  split; [now apply well_formed_create_section3|].
  split; [now apply well_formed_create_section4|].
  split; [now apply well_formed_create_conclusion|].
  now apply well_formed_create_references.
Qed.

Lemma builders_keep_run_shapes_witness :
  well_formed_runs (create_title_page Document)
  /\ well_formed_runs (create_toc ascii_upper Document).
Proof.
  pose proof (builders_keep_run_shapes ascii_upper Document
                well_formed_Document) as H.
  split; [apply H | apply H].
Defined.

(** X14. In the document [main] writes, every run is of one of the four
    shapes.  So no run holds raw XML; a run has either Times New Roman at
    14pt or no font and no size at all; and the East-Asian font equals the
    Latin font on every run except the page-number runs of the table of
    contents, whose text starts with a tab. *)
Theorem main_run_shapes (str_upper : string -> string) :
  exists doc,
    main str_upper = Ok doc
    /\ forall r,
         In r (doc_runs doc) ->
         run_kind r
         /\ has_raw r = false
         /\ ((font_name r = Some "Times New Roman"
              /\ font_size r = Some (Pt 14))
             \/ (font_name r = None /\ font_size r = None
                 /\ rFonts_eastAsia r = None))
         /\ (rFonts_eastAsia r = font_name r
             \/ (rFonts_eastAsia r = None
                 /\ exists page, run_text r = tab ++ page)).
Proof.
  assert (H : exists doc, main str_upper = Ok doc /\ well_formed_runs doc).
  { unfold main. cbv zeta.
    match goal with
    | |- context [create_section4 str_upper ?d] =>
        destruct (well_formed_create_section4 str_upper d) as (d4 & E4 & H4)
    end.
    - apply well_formed_add_page_break, well_formed_create_section3,
        well_formed_add_page_break, well_formed_create_section2,
        well_formed_add_page_break, well_formed_create_section1,
        well_formed_add_page_break, well_formed_create_introduction,
        well_formed_add_page_break, well_formed_create_toc,
        well_formed_add_page_break, well_formed_create_title_page,
        well_formed_setup_document, well_formed_Document.
    - rewrite E4. cbn [bind]. eexists. split; [reflexivity|].
      apply well_formed_create_references, well_formed_add_page_break,
        well_formed_create_conclusion, well_formed_add_page_break, H4. }
  destruct H as (doc & Hmain & Hwf). exists doc. split; [exact Hmain|].
  intros r Hin. unfold well_formed_runs in Hwf.
  rewrite List.Forall_forall in Hwf. specialize (Hwf r Hin).
  split; [exact Hwf | now apply run_kind_facts].
Qed.
